(** * Asetek 690LC driver (liquidctl/driver/asetek.py): model and properties

    The driver is a Python class whose methods talk to a USB device, to a
    YAML data file holding the last lighting command, and to a logger.  The
    model threads one [state] through every method: the outcomes the device
    will give to the next calls, the chronological trace of everything the
    driver did (device calls, data-file accesses, log records), the contents
    of the data file and the [dry_run] flag.  Methods are computations in a
    state-and-exception monad, so that an exception raised half way leaves
    the effects performed so far in place, as in Python. *)

From Stdlib Require Import ZArith String List Lia.
From Stdlib Require QArith_base.
From stdpp Require Import gmap strings list pretty.

Local Open Scope string_scope.
Local Open Scope list_scope.
Local Open Scope Z_scope.

(** ** Exceptions and results *)

(** The exception classes that the driver raises, catches, or lets through.
    [USBError] is [usb.core.USBError]; the others are Python built-ins. *)
Inductive exn : Type :=
  | USBError
  | KeyError
  | ValueError
  | IndexError
  | NotImplementedError.

Definition exn_eqb (a b : exn) : bool :=
  match a, b with
  | USBError, USBError | KeyError, KeyError | ValueError, ValueError
  | IndexError, IndexError | NotImplementedError, NotImplementedError => true
  | _, _ => false
  end.

Inductive result (A : Type) : Type :=
  | Ok (a : A)
  | Raise (e : exn).
Arguments Ok {A} a.
Arguments Raise {A} e.


(** ** Observable events *)

Inductive level : Type := DEBUG | INFO | WARNING.

(** Arguments of a logging call; [AHex] stands for the list whose
    two-digit hexadecimal rendering is logged. *)
Inductive log_arg : Type :=
  | AStr (s : string)
  | AInt (z : Z)
  | AHex (data : list Z)
  | AExc (e : exn).

Inductive event : Type :=
  | EvAttach                                   (* BaseUsbDriver.connect *)
  | EvRelease                                  (* BaseUsbDriver.disconnect *)
  | EvCtrl (bmRequestType bRequest wValue : Z) (* device.ctrl_transfer *)
  | EvWrite (endpoint : Z) (data : list Z) (timeout : Z) (* device.write *)
  | EvRead (endpoint size timeout : Z)         (* device.read *)
  | EvDispose                                  (* usb.util.dispose_resources *)
  | EvLoad                                     (* BoxList.from_yaml *)
  | EvSave (data : list Z)                     (* BoxList.to_yaml *)
  | EvLog (lvl : level) (fmt : string) (args : list log_arg).

(** What the device answers to one call: a payload (meaningful for reads
    only) or an exception. *)
Inductive outcome : Type :=
  | DevOk (payload : list Z)
  | DevRaise (e : exn).

(** ** Driver state *)

Record state : Type := mkState {
  script : list outcome;   (* answers of the device to the coming calls *)
  trace : list event;      (* what happened so far, oldest first *)
  data_file : list Z;      (* contents of profile.yaml *)
  dry_run : bool
}.

Definition record_event (e : event) (st : state) : state :=
  mkState (script st) (trace st ++ [e]) (data_file st) (dry_run st).

Definition set_script (s : list outcome) (st : state) : state :=
  mkState s (trace st) (data_file st) (dry_run st).

Definition set_data_file (d : list Z) (st : state) : state :=
  mkState (script st) (trace st) d (dry_run st).

(** ** The monad of driver methods *)

Definition M (A : Type) : Type := state -> result A * state.

Definition ret {A} (a : A) : M A := fun st => (Ok a, st).

Definition raise {A} (e : exn) : M A := fun st => (Raise e, st).

Definition bind {A B} (m : M A) (k : A -> M B) : M B :=
  fun st =>
    match m st with
    | (Ok a, st') => k a st'
    | (Raise e, st') => (Raise e, st')
    end.

Definition lift {A} (r : result A) : M A := fun st => (r, st).

(** [try: m except cls as err: h err], for a class test [catches]. *)
Definition try_except {A} (m : M A) (catches : exn -> bool) (h : exn -> M A) : M A :=
  fun st =>
    match m st with
    | (Ok a, st') => (Ok a, st')
    | (Raise e, st') => if catches e then h e st' else (Raise e, st')
    end.

Declare Scope drv_scope.
Delimit Scope drv_scope with drv.
Notation "x <- m ;; k" := (bind m (fun x => k))
  (at level 100, m at next level, right associativity) : drv_scope.
Notation "m ;; k" := (bind m (fun _ => k))
  (at level 100, right associativity) : drv_scope.
Local Open Scope drv_scope.

(** ** Collaborators: logger, device, data file *)

Definition log (lvl : level) (fmt : string) (args : list log_arg) : M unit :=
  fun st => (Ok tt, record_event (EvLog lvl fmt args) st).

(** One call on the device (or on the base class, which only forwards to
    it): the call is recorded, then answered by the head of the script.  An
    exhausted script answers with an empty success. *)
Definition device_call (e : event) : M (list Z) :=
  fun st =>
    let st' := record_event e st in
    match script st with
    | [] => (Ok [], st')
    | DevOk p :: s => (Ok p, set_script s st')
    | DevRaise x :: s => (Raise x, set_script s st')
    end.

Definition from_yaml : M (list Z) :=
  fun st => (Ok (data_file st), record_event EvLoad st).

Definition to_yaml (data : list Z) : M unit :=
  fun st => (Ok tt, set_data_file data (record_event (EvSave data) st)).

Definition get_dry_run : M bool := fun st => (Ok (dry_run st), st).

(** ** Module constants *)

Definition _FIXED_SPEED_CHANNELS : gmap string (Z * Z * Z) :=
  <["fan" := (0x12, 30, 100)]> (<["pump" := (0x13, 30, 100)]> ∅).

Definition _VARIABLE_SPEED_CHANNELS : gmap string (Z * Z * Z) :=
  <["fan" := (0x11, 30, 100)]> ∅.

Definition _MAX_PROFILE_POINTS : Z := 6.
Definition _CRITICAL_TEMPERATURE : Z := 60.
Definition _READ_ENDPOINT : Z := 0x82.
Definition _READ_LENGTH : Z := 32.
Definition _READ_TIMEOUT : Z := 2000.
Definition _WRITE_ENDPOINT : Z := 0x2.
Definition _WRITE_TIMEOUT : Z := 2000.

Definition _USBXPRESS_REQUEST : Z := 0x02.
Definition _USBXPRESS_FLUSH_BUFFERS : Z := 0x01.
Definition _USBXPRESS_CLEAR_TO_SEND : Z := 0x02.
Definition _USBXPRESS_NOT_CLEAR_TO_SEND : Z := 0x04.

(** pyusb's [usb.util] constants used to build the request type. *)
Definition CTRL_OUT : Z := 0x00.
Definition CTRL_TYPE_VENDOR : Z := 0x40.
Definition CTRL_RECIPIENT_DEVICE : Z := 0x00.

Definition _USBXPRESS : Z :=
  Z.lor (Z.lor CTRL_OUT CTRL_TYPE_VENDOR) CTRL_RECIPIENT_DEVICE.

Definition DEFAULT_COLOR_STATE : list Z :=
  [ 0x10;
    0x00; 0x00; 0x00;
    0x00; 0x00; 0x00;
    0xff; 0x00; 0x00; 0x37;
    0x00; 0x00;
    0x00; 0x00; 0x00;
    0x01; 0x00; 0x01 ].

(** ** AsetekDriver *)

(** [__init__]: the data file is created with the default lighting state
    when it does not exist; [existing] is what is on disk beforehand. *)
Definition __init__ (existing : option (list Z)) (dev : list outcome) (dry : bool) : state :=
  match existing with
  | Some d => mkState dev [] d dry
  | None => mkState dev [EvSave DEFAULT_COLOR_STATE] DEFAULT_COLOR_STATE dry
  end.

Definition is_USBError (e : exn) : bool := exn_eqb e USBError.

Definition ctrl_transfer (bmRequestType bRequest wValue : Z) : M unit :=
  device_call (EvCtrl bmRequestType bRequest wValue) ;; ret tt.

Definition _open : M unit :=
  log DEBUG "open device" [] ;;
  ctrl_transfer _USBXPRESS _USBXPRESS_REQUEST _USBXPRESS_CLEAR_TO_SEND.

Definition _close : M unit :=
  log DEBUG "close device" [] ;;
  ctrl_transfer _USBXPRESS _USBXPRESS_REQUEST _USBXPRESS_NOT_CLEAR_TO_SEND.

Definition _begin_transaction : M unit :=
  log DEBUG "begin transaction" [] ;;
  ctrl_transfer _USBXPRESS _USBXPRESS_REQUEST _USBXPRESS_FLUSH_BUFFERS.

Definition _end_transaction_and_read : M (list Z) :=
  msg <- device_call (EvRead _READ_ENDPOINT _READ_LENGTH _READ_TIMEOUT) ;;
  log DEBUG "received %s" [AHex msg] ;;
  device_call EvDispose ;;
  ret msg.

Definition _write (data : list Z) : M unit :=
  log DEBUG "write %s" [AHex data] ;;
  dry <- get_dry_run ;;
  if dry then ret tt
  else device_call (EvWrite _WRITE_ENDPOINT data _WRITE_TIMEOUT) ;; ret tt.

Definition _send_dummy_command : M unit :=
  data <- from_yaml ;;
  _write data.

Definition connect : M unit :=
  device_call EvAttach ;;
  try_except _open is_USBError (fun err =>
    log WARNING "report: failed to open right away, will close first" [] ;;
    log DEBUG "%s" [AExc err] ;;
    _close ;;
    _open).

Definition disconnect : M unit :=
  _close ;;
  device_call EvRelease ;;
  ret tt.

(** *** Status report *)

(** A value of one report entry.  Python computes the temperature in binary
    floating point; the model keeps the rational number that the
    expression denotes. *)
Inductive pyval : Type :=
  | VFloat (q : QArith_base.Q)
  | VInt (z : Z)
  | VStr (s : string).

Definition report : Type := list (string * pyval * string).

(** [msg[i]] *)
Definition getitem (msg : list Z) (i : nat) : result Z :=
  match msg !! i with
  | Some x => Ok x
  | None => Raise IndexError
  end.

(** [msg[a:b]] for constant bounds [0 <= a <= b]. *)
Definition slice (msg : list Z) (a b : nat) : list Z :=
  take (b - a) (drop a msg).

(** ['{}.{}.{}.{}'.format( *args )]: further positional arguments are
    ignored, missing ones raise [IndexError]. *)
Definition format_firmware (args : list Z) : result string :=
  match args with
  | a :: b :: c :: d :: _ =>
      Ok (pretty a +:+ "." +:+ pretty b +:+ "." +:+ pretty c +:+ "." +:+ pretty d)
  | _ => Raise IndexError
  end.

Definition get_status : M report :=
  _begin_transaction ;;
  _send_dummy_command ;;
  msg <- _end_transaction_and_read ;;
  firmware <- lift (format_firmware (slice msg 0x17 0x1b)) ;;
  m10 <- lift (getitem msg 10) ;;
  m14 <- lift (getitem msg 14) ;;
  m0 <- lift (getitem msg 0) ;;
  m1 <- lift (getitem msg 1) ;;
  m8 <- lift (getitem msg 8) ;;
  m9 <- lift (getitem msg 9) ;;
  ret [ ("Liquid temperature",
         VFloat (QArith_base.Qplus (QArith_base.inject_Z m10) (QArith_base.Qmake m14 10)),
         "°C");
        ("Fan speed", VInt (Z.lor (Z.shiftl m0 8) m1), "rpm");
        ("Pump speed", VInt (Z.lor (Z.shiftl m8 8) m9), "rpm");
        ("Firmware version", VStr firmware, EmptyString) ].

(** *** Fixed speeds *)

Definition _send_fixed_speed (channel : string) (speed : Z) : M unit :=
  match _FIXED_SPEED_CHANNELS !! channel with
  | None => raise KeyError
  | Some (mtype, smin, smax) =>
      let speed := if speed <? smin then smin
                   else if speed >? smax then smax
                   else speed in
      log INFO "setting %s PWM duty to %i%%" [AStr channel; AInt speed] ;;
      _write [mtype; speed]
  end.

Definition set_fixed_speed (channel : string) (speed : Z) : M unit :=
  if String.eqb channel "sync" then
    _begin_transaction ;;
    _send_fixed_speed "pump" speed ;;
    _send_fixed_speed "fan" speed ;;
    _end_transaction_and_read ;;
    ret tt
  else
    match _FIXED_SPEED_CHANNELS !! channel with
    | None => raise KeyError
    | Some _ =>
        _begin_transaction ;;
        _send_fixed_speed channel speed ;;
        try_except (_end_transaction_and_read ;; ret tt) is_USBError (fun err =>
          log WARNING "report: failed to read after setting speed" [] ;;
          log DEBUG "%s" [AExc err])
    end.

(** *** Speed profiles *)

(** The loop of [_prepare_profile]: [enumerate(opt)] walks the list by
    position while the body overwrites the entry just visited. *)
Fixpoint clamp_loop (n : nat) (i : nat) (min_duty max_duty : Z)
    (opt : list (Z * Z)) : list (Z * Z) :=
  match n with
  | O => opt
  | S n' =>
      match opt !! i with
      | None => opt
      | Some (temp, duty) =>
          let opt' :=
            if duty <? min_duty then <[i := (temp, min_duty)]> opt
            else if duty >? max_duty then <[i := (temp, max_duty)]> opt
            else opt in
          clamp_loop n' (S i) min_duty max_duty opt'
      end
  end.

Definition clamp_pass (min_duty max_duty : Z) (opt : list (Z * Z)) : list (Z * Z) :=
  clamp_loop (length opt) 0 min_duty max_duty opt.

(** [temps, duties = map(list, zip( *opt_profile ))]: unpacking an empty
    [zip] into two names raises [ValueError]. *)
Definition unzip_profile (opt : list (Z * Z)) : result (list Z * list Z) :=
  match opt with
  | [] => Raise ValueError
  | _ => Ok (map fst opt, map snd opt)
  end.

Fixpoint log_profile (channel : string) (opt : list (Z * Z)) : M unit :=
  match opt with
  | [] => ret tt
  | (temp, duty) :: rest =>
      log INFO "setting %s PWM duty to %i%% for liquid temperature >= %i°C"
          [AStr channel; AInt duty; AInt temp] ;;
      log_profile channel rest
  end.

Section Profiles.

(** [liquidctl.util.normalize_profile] and [autofill_profile] live in
    another module; the driver is modelled over any pair of them. *)
Variable normalize_profile : list (Z * Z) -> Z -> result (list (Z * Z)).
Variable autofill_profile : list (Z * Z) -> Z -> result (list (Z * Z)).

Definition _prepare_profile (profile : list (Z * Z)) (min_duty max_duty : Z)
    : result (list (Z * Z)) :=
  match normalize_profile profile _CRITICAL_TEMPERATURE with
  | Raise e => Raise e
  | Ok norm =>
      match autofill_profile norm _MAX_PROFILE_POINTS with
      | Raise e => Raise e
      | Ok opt => Ok (clamp_pass min_duty max_duty opt)
      end
  end.

Definition set_speed_profile (channel : string) (profile : list (Z * Z)) : M unit :=
  match _VARIABLE_SPEED_CHANNELS !! channel with
  | None => raise KeyError
  | Some (mtype, dmin, dmax) =>
      opt_profile <- lift (_prepare_profile profile dmin dmax) ;;
      log_profile channel opt_profile ;;
      td <- lift (unzip_profile opt_profile) ;;
      _begin_transaction ;;
      _write ([mtype; 0] ++ fst td ++ snd td) ;;
      _end_transaction_and_read ;;
      ret tt
  end.

End Profiles.

(** *** Lighting *)

Definition modes : list string := ["fixed"; "alternating"; "blinking"; "off"].

Definition speeds : gmap string Z :=
  <["fastest" := 1]> (<["faster" := 2]> (<["normal" := 3]>
    (<["slower" := 4]> (<["slowest" := 5]> ∅)))).

(** The [speed] argument, by what [int(speed)] does with it: it yields an
    integer, or it raises [ValueError] (a string that is not a number). *)
Inductive speed_arg : Type :=
  | SpeedInt (n : Z)
  | SpeedStr (s : string).

Definition set_color_speed (speed : speed_arg) : M Z :=
  match speed with
  | SpeedStr s =>
      match speeds !! s with
      | None =>
          log WARNING "Speed must be a value between 1 and 255, setting to 1" [] ;;
          ret 1
      | Some v => ret v
      end
  | SpeedInt n =>
      if (n <? 1) || (n >? 255) then
        log WARNING "Speed must be a value between 1 and 255, setting to 1" [] ;;
        ret 1
      else ret n
  end.

Definition lighting_frame (color1 color2 : list Z) (speed : Z) (mode : string) : list Z :=
  [0x10] ++ color1 ++ color2 ++
  [ 0xff; 0x00; 0x00; 0x37;
    speed;
    speed;
    if String.eqb mode "off" then 0x00 else 0x01;
    if String.eqb mode "alternating" then 0x01 else 0x00;
    if String.eqb mode "blinking" then 0x01 else 0x00;
    0x01; 0x00; 0x01 ].

Definition set_color_colors (mode : string) (colors : list (list Z))
    : M (list Z * list Z) :=
  if String.eqb mode "off" then ret ([0x00; 0x00; 0x00], [0x00; 0x00; 0x00])
  else
    match colors with
    | [] => raise ValueError
    | color1 :: color2 =>
        (if (1 <? length color2)%nat then
           log WARNING "Only maximum of 2 colors supported, ignoring further colors" []
         else ret tt) ;;
        ret (color1, match color2 with c :: _ => c | [] => [0x00; 0x00; 0x00] end)
    end.

(** The text ['Only "logo" channel supported for this device, falling back
    to that'], with its two double-quote characters (code 34). *)
Definition only_logo_message : string :=
  "Only " +:+ String (Ascii.ascii_of_nat 34) "logo" +:+
  String (Ascii.ascii_of_nat 34) " channel supported for this device, falling back to that".

Definition set_color (channel mode : string) (colors : list (list Z))
    (speed : speed_arg) : M unit :=
  speed <- set_color_speed speed ;;
  (if negb (String.eqb channel "logo") then
     log WARNING only_logo_message []
   else ret tt) ;;
  (if bool_decide (mode ∈ modes) then ret tt else raise NotImplementedError) ;;
  cc <- set_color_colors mode colors ;;
  _begin_transaction ;;
  let data := lighting_frame (fst cc) (snd cc) speed mode in
  to_yaml data ;;
  _write data ;;
  _end_transaction_and_read ;;
  ret tt.

(** ** Reading traces and scripts *)

(** The answer that the device gives to the [n]-th coming call. *)
Definition answer (st : state) (n : nat) : outcome :=
  default (DevOk []) (script st !! n).

Definition succeeds (o : outcome) : bool :=
  match o with DevOk _ => true | DevRaise _ => false end.

Definition outcome_result (o : outcome) : result unit :=
  match o with DevOk _ => Ok tt | DevRaise e => Raise e end.

(** The state after [k] more device calls were answered and [evs] were
    appended to the trace. *)
Definition advance (k : nat) (evs : list event) (st : state) : state :=
  mkState (drop k (script st)) (trace st ++ evs) (data_file st) (dry_run st).

Definition payload_result (o : outcome) : result (list Z) :=
  match o with DevOk p => Ok p | DevRaise e => Raise e end.

(** [emits st st' evs]: going from [st] to [st'] appended exactly [evs]. *)
Definition emits (st st' : state) (evs : list event) : Prop :=
  trace st' = trace st ++ evs.

Definition is_device_call (e : event) : bool :=
  match e with
  | EvAttach | EvRelease | EvCtrl _ _ _ | EvWrite _ _ _ | EvRead _ _ _ | EvDispose => true
  | EvLoad | EvSave _ | EvLog _ _ _ => false
  end.

(** The calls that reached the device, in order. *)
Definition device_calls (evs : list event) : list event :=
  List.filter is_device_call evs.

(** The frames handed to [device.write], in order. *)
Fixpoint transport_writes (evs : list event) : list (list Z) :=
  match evs with
  | [] => []
  | EvWrite _ data _ :: rest => data :: transport_writes rest
  | _ :: rest => transport_writes rest
  end.

Definition is_warning (e : event) : bool :=
  match e with EvLog WARNING _ _ => true | _ => false end.

Definition warnings (evs : list event) : list event :=
  List.filter is_warning evs.

Definition open_call : event :=
  EvCtrl _USBXPRESS _USBXPRESS_REQUEST _USBXPRESS_CLEAR_TO_SEND.
Definition close_call : event :=
  EvCtrl _USBXPRESS _USBXPRESS_REQUEST _USBXPRESS_NOT_CLEAR_TO_SEND.
Definition begin_call : event :=
  EvCtrl _USBXPRESS _USBXPRESS_REQUEST _USBXPRESS_FLUSH_BUFFERS.
Definition read_call : event :=
  EvRead _READ_ENDPOINT _READ_LENGTH _READ_TIMEOUT.
Definition write_call (data : list Z) : event :=
  EvWrite _WRITE_ENDPOINT data _WRITE_TIMEOUT.

Definition event_eqb_ctrl (wValue : Z) (e : event) : bool :=
  match e with
  | EvCtrl t r v => (t =? _USBXPRESS) && (r =? _USBXPRESS_REQUEST) && (v =? wValue)
  | _ => false
  end.

(** Number of [_open] (resp. [_close]) control transfers among [evs]. *)
Definition opens (evs : list event) : nat :=
  length (List.filter (event_eqb_ctrl _USBXPRESS_CLEAR_TO_SEND) evs).
Definition closes (evs : list event) : nat :=
  length (List.filter (event_eqb_ctrl _USBXPRESS_NOT_CLEAR_TO_SEND) evs).

(** What [connect] appends to the trace: up to the first [_open], up to
    the [_close] that follows a failed one, and up to the second [_open]. *)
Definition connect_first_events : list event :=
  [EvAttach; EvLog DEBUG "open device" []; open_call].

Definition connect_close_events : list event :=
  connect_first_events ++
  [EvLog WARNING "report: failed to open right away, will close first" [];
   EvLog DEBUG "%s" [AExc USBError];
   EvLog DEBUG "close device" []; close_call].

Definition connect_retry_events : list event :=
  connect_close_events ++ [EvLog DEBUG "open device" []; open_call].

(** ** Specification-side vocabulary *)

(** [clip lo hi x]: [x] brought into [lo .. hi]. *)
Definition clip (lo hi x : Z) : Z := Z.max lo (Z.min x hi).

(** The frames passed to [_write] (each call logs its argument), in order. *)
Fixpoint write_requests (evs : list event) : list (list Z) :=
  match evs with
  | [] => []
  | EvLog DEBUG fmt [AHex data] :: rest =>
      if String.eqb fmt "write %s" then data :: write_requests rest
      else write_requests rest
  | _ :: rest => write_requests rest
  end.

(** What one [_write data] appends to the trace. *)
Definition write_events (dry : bool) (data : list Z) : list event :=
  EvLog DEBUG "write %s" [AHex data] :: (if dry then [] else [write_call data]).

Definition begin_events : list event :=
  [EvLog DEBUG "begin transaction" []; begin_call].

(** What [_end_transaction_and_read] appends when the read returns [msg]. *)
Definition read_events (msg : list Z) : list event :=
  [read_call; EvLog DEBUG "received %s" [AHex msg]; EvDispose].

(** ** Example devices *)

(** A bridge whose first [_open] fails and which recovers after [_close]. *)
Definition flaky_bridge : state :=
  __init__ (Some DEFAULT_COLOR_STATE)
    [DevOk []; DevRaise USBError; DevOk []; DevOk []] false.

(** A bridge on which both [_open] and [_close] fail. *)
Definition stuck_bridge : state :=
  __init__ (Some DEFAULT_COLOR_STATE)
    [DevOk []; DevRaise USBError; DevRaise USBError] false.

(** A device that answers every call, with an empty payload. *)
Definition quiet_device (dry : bool) : state :=
  __init__ (Some DEFAULT_COLOR_STATE) [] dry.

(** A device whose only failure is a transport error on the [n]-th call. *)
Definition failing_at (n : nat) (dry : bool) : state :=
  __init__ (Some DEFAULT_COLOR_STATE) (replicate n (DevOk []) ++ [DevRaise USBError]) dry.

(** ** Status: the transaction and the decoding of [get_status] apart *)

(** The transaction of [get_status], up to the raw frame. *)
Definition status_frame : M (list Z) :=
  _begin_transaction ;;
  _send_dummy_command ;;
  _end_transaction_and_read.


(** [frame[i]], with 0 standing for a byte that is not there. *)
Definition frame_byte (frame : list Z) (i : nat) : Z := default 0 (frame !! i).

(** The report as the specification words it: temperature
    [frame[10] + frame[14]/10], fan speed [frame[0]<<8 | frame[1]], pump
    speed [frame[8]<<8 | frame[9]], firmware version the four bytes
    [frame[0x17..0x1a]] joined with dots. *)
Definition decode (frame : list Z) : report :=
  [ ("Liquid temperature",
     VFloat (QArith_base.Qplus (QArith_base.inject_Z (frame_byte frame 10))
                               (QArith_base.Qmake (frame_byte frame 14) 10)),
     "°C");
    ("Fan speed", VInt (Z.lor (Z.shiftl (frame_byte frame 0) 8) (frame_byte frame 1)), "rpm");
    ("Pump speed", VInt (Z.lor (Z.shiftl (frame_byte frame 8) 8) (frame_byte frame 9)), "rpm");
    ("Firmware version",
     VStr (pretty (frame_byte frame 0x17) +:+ "." +:+ pretty (frame_byte frame 0x18) +:+ "."
           +:+ pretty (frame_byte frame 0x19) +:+ "." +:+ pretty (frame_byte frame 0x1a)),
     EmptyString) ].

(** The entry of a report under a label. *)
Fixpoint report_entry (label : string) (rep : report) : option (pyval * string) :=
  match rep with
  | [] => None
  | (l, v, u) :: rest => if String.eqb l label then Some (v, u) else report_entry label rest
  end.


(** A full response: fan at 3000 rpm, pump at 1000 rpm, liquid at 30.3 °C,
    firmware 1.2.3.4. *)
Definition sample_frame : list Z :=
  [0x0b; 0xb8] ++ replicate 6 0 ++ [0x03; 0xe8; 30; 0; 0; 0; 3] ++ replicate 8 0 ++
  [1; 2; 3; 4] ++ replicate 5 0.

(** A device that answers the read of a status transaction with [frame]. *)
Definition answering (frame : list Z) (dry : bool) : state :=
  __init__ (Some DEFAULT_COLOR_STATE)
    ((if dry then [DevOk []] else [DevOk []; DevOk []]) ++ [DevOk frame]) dry.

(** ** Profiles: what the clamp pass computes on one point *)

Definition clamp_point (min_duty max_duty : Z) (p : Z * Z) : Z * Z :=
  (p.1, if p.2 <? min_duty then min_duty
        else if p.2 >? max_duty then max_duty
        else p.2).

(** A stand-in for either function of [liquidctl.util], used in examples:
    it leaves the profile as it is. *)
Definition keep_profile (profile : list (Z * Z)) (_ : Z) : result (list (Z * Z)) :=
  Ok profile.

(** The frame of a speed profile. *)
Definition profile_frame (mtype : Z) (opt : list (Z * Z)) : list Z :=
  [mtype; 0] ++ map fst opt ++ map snd opt.

(** The INFO records of [set_speed_profile], one per point. *)
Definition profile_log (channel : string) (opt : list (Z * Z)) : list event :=
  map (λ p, EvLog INFO "setting %s PWM duty to %i%% for liquid temperature >= %i°C"
                  [AStr channel; AInt p.2; AInt p.1]) opt.

(** ** Lighting: what [set_color] settles before the transaction *)

Definition speed_warning : event :=
  EvLog WARNING "Speed must be a value between 1 and 255, setting to 1" [].

Definition channel_warning : event := EvLog WARNING only_logo_message [].

Definition truncation_warning : event :=
  EvLog WARNING "Only maximum of 2 colors supported, ignoring further colors" [].

(** The speed byte: a named level, an integer of [1 .. 255], or else 1. *)
Definition speed_value (speed : speed_arg) : Z :=
  match speed with
  | SpeedStr s => default 1 (speeds !! s)
  | SpeedInt n => if (n <? 1) || (n >? 255) then 1 else n
  end.

Definition speed_events (speed : speed_arg) : list event :=
  match speed with
  | SpeedStr s => match speeds !! s with None => [speed_warning] | Some _ => [] end
  | SpeedInt n => if (n <? 1) || (n >? 255) then [speed_warning] else []
  end.

Definition channel_events (channel : string) : list event :=
  if String.eqb channel "logo" then [] else [channel_warning].

(** The two colours of the frame: black twice for mode ['off'], otherwise
    the first colour given and the second one, or black when there is none. *)
Definition chosen_colors (mode : string) (colors : list (list Z)) : list Z * list Z :=
  if String.eqb mode "off" then ([0; 0; 0], [0; 0; 0])
  else (default [] (colors !! 0%nat), default [0; 0; 0] (colors !! 1%nat)).

Definition color_events (mode : string) (colors : list (list Z)) : list event :=
  if negb (String.eqb mode "off") && (2 <? length colors)%nat
  then [truncation_warning] else [].

(** Everything [set_color] appends up to and including begin-transaction. *)
Definition color_preamble (channel mode : string) (colors : list (list Z))
    (speed : speed_arg) : list event :=
  speed_events speed ++ channel_events channel ++ color_events mode colors ++ begin_events.

(** A device that accepts begin-transaction and then refuses the write. *)
Definition write_refused : state :=
  __init__ (Some DEFAULT_COLOR_STATE) [DevOk []; DevRaise USBError] false.

(** ** Invariants of a run *)

(** The contents of the data file after [evs]: the frame of the last save
    among them, or [d] when there is none. *)
Fixpoint last_saved (d : list Z) (evs : list event) : list Z :=
  match evs with
  | [] => d
  | EvSave d' :: rest => last_saved d' rest
  | _ :: rest => last_saved d rest
  end.

(** The state after a run that had [k] device calls answered, appended
    [evs] and saved what [evs] says. *)
Definition transition (k : nat) (evs : list event) (st : state) : state :=
  mkState (drop k (script st)) (trace st ++ evs)
          (last_saved (data_file st) evs) (dry_run st).

(** [respects allowed m]: every run of [m] is such a transition, and each
    event it appends is allowed for the [dry_run] flag of the driver. *)
Definition respects {A} (allowed : bool -> event -> bool) (m : M A) : Prop :=
  ∀ st, ∃ k evs,
    (m st).2 = transition k evs st ∧
    Forall (λ e, allowed (dry_run st) e = true) evs.


(** Events that a dry run may produce: anything but a [device.write]. *)
Definition dry_safe (dry : bool) (e : event) : bool :=
  match e with EvWrite _ _ _ => negb dry | _ => true end.

Definition is_transport_write (e : event) : bool :=
  match e with EvWrite _ _ _ => true | _ => false end.


(** * Properties *)

(** ** How each primitive moves the state *)

Lemma advance_advance k1 k2 evs1 evs2 st :
  advance k2 evs2 (advance k1 evs1 st) = advance (k1 + k2) (evs1 ++ evs2) st.
Proof.
  unfold advance; cbn. by rewrite drop_drop, app_assoc.
Qed.

Lemma answer_advance k evs st n : answer (advance k evs st) n = answer st (k + n).
Proof.
  unfold answer, advance; cbn. by rewrite lookup_drop.
Qed.

Lemma dry_run_advance k evs st : dry_run (advance k evs st) = dry_run st.
Proof. reflexivity. Qed.

Lemma data_file_advance k evs st : data_file (advance k evs st) = data_file st.
Proof. reflexivity. Qed.

Lemma trace_advance k evs st : trace (advance k evs st) = trace st ++ evs.
Proof. reflexivity. Qed.

Lemma emits_advance k evs st : emits st (advance k evs st) evs.
Proof. reflexivity. Qed.

Lemma log_run lvl fmt args st :
  log lvl fmt args st = (Ok tt, advance 0 [EvLog lvl fmt args] st).
Proof. reflexivity. Qed.

Lemma device_call_run e st :
  device_call e st = (payload_result (answer st 0), advance 1 [e] st).
Proof.
  destruct st as [[|[p|x] s] t d dr]; reflexivity.
Qed.

Lemma ctrl_transfer_run ty rq v st :
  ctrl_transfer ty rq v st = (outcome_result (answer st 0), advance 1 [EvCtrl ty rq v] st).
Proof.
  unfold ctrl_transfer, bind. rewrite device_call_run.
  by destruct (answer st 0).
Qed.

Lemma _open_run st :
  _open st = (outcome_result (answer st 0),
              advance 1 [EvLog DEBUG "open device" []; open_call] st).
Proof.
  unfold _open, bind. rewrite log_run, ctrl_transfer_run, advance_advance, answer_advance.
  reflexivity.
Qed.

Lemma _close_run st :
  _close st = (outcome_result (answer st 0),
               advance 1 [EvLog DEBUG "close device" []; close_call] st).
Proof.
  unfold _close, bind. rewrite log_run, ctrl_transfer_run, advance_advance, answer_advance.
  reflexivity.
Qed.

Lemma _begin_transaction_run st :
  _begin_transaction st =
    (outcome_result (answer st 0), advance 1 begin_events st).
Proof.
  unfold _begin_transaction, bind.
  rewrite log_run, ctrl_transfer_run, advance_advance, answer_advance.
  reflexivity.
Qed.

(** Number of device calls that one [_write] makes. *)
Lemma _write_run data st :
  _write data st =
    (if dry_run st then Ok tt else outcome_result (answer st 0),
     advance (if dry_run st then 0 else 1) (write_events (dry_run st) data) st).
Proof.
  unfold _write, bind, get_dry_run, write_events. rewrite log_run. cbn [dry_run advance].
  destruct (dry_run st) eqn:Hdry; [reflexivity|].
  rewrite device_call_run, advance_advance, answer_advance. cbn [Nat.add app].
  by destruct (answer st 0).
Qed.

Lemma _end_transaction_and_read_run st :
  _end_transaction_and_read st =
    match answer st 0 with
    | DevRaise e => (Raise e, advance 1 [read_call] st)
    | DevOk msg =>
        (match answer st 1 with DevRaise e => Raise e | DevOk _ => Ok msg end,
         advance 2 (read_events msg) st)
    end.
Proof.
  unfold _end_transaction_and_read, bind. rewrite device_call_run.
  destruct (answer st 0) as [msg|e]; cbn [payload_result]; [|reflexivity].
  rewrite log_run, advance_advance, device_call_run, advance_advance, !answer_advance.
  cbn [Nat.add app]. by destruct (answer st 1).
Qed.

Lemma _send_dummy_command_run st :
  _send_dummy_command st =
    (if dry_run st then Ok tt else outcome_result (answer st 0),
     advance (if dry_run st then 0 else 1)
       (EvLoad :: write_events (dry_run st) (data_file st)) st).
Proof.
  unfold _send_dummy_command, bind, from_yaml.
  change (record_event EvLoad st) with (advance 0 [EvLoad] st).
  rewrite _write_run, dry_run_advance, !advance_advance, answer_advance.
  reflexivity.
Qed.

(** ** The channel tables *)

Lemma fixed_channel_inv channel v :
  _FIXED_SPEED_CHANNELS !! channel = Some v →
  (channel = "fan" ∧ v = (0x12, 30, 100)) ∨ (channel = "pump" ∧ v = (0x13, 30, 100)).
Proof.
  unfold _FIXED_SPEED_CHANNELS. intros H.
  apply lookup_insert_Some in H as [[<- <-]|[_ H]]; [by left|].
  apply lookup_insert_Some in H as [[<- <-]|[_ H]]; [by right|].
  by rewrite lookup_empty in H.
Qed.

Lemma variable_channel_inv channel v :
  _VARIABLE_SPEED_CHANNELS !! channel = Some v →
  channel = "fan" ∧ v = (0x11, 30, 100).
Proof.
  unfold _VARIABLE_SPEED_CHANNELS. intros H.
  apply lookup_insert_Some in H as [[<- <-]|[_ H]]; [done|].
  by rewrite lookup_empty in H.
Qed.



Lemma fixed_channel_bounds channel mtype smin smax :
  _FIXED_SPEED_CHANNELS !! channel = Some (mtype, smin, smax) → smin ≤ smax.
Proof.
  intros [[_ [= _ -> ->]]|[_ [= _ -> ->]]]%fixed_channel_inv; lia.
Qed.

Lemma fixed_channel_not_sync channel :
  is_Some (_FIXED_SPEED_CHANNELS !! channel) → String.eqb channel "sync" = false.
Proof.
  intros [v [[-> _]|[-> _]]%fixed_channel_inv]; reflexivity.
Qed.

(** ** Connection life cycle *)

Lemma connect_run st :
  connect st =
    match answer st 0 with
    | DevRaise e => (Raise e, advance 1 [EvAttach] st)
    | DevOk _ =>
        match answer st 1 with
        | DevOk _ => (Ok tt, advance 2 connect_first_events st)
        | DevRaise USBError =>
            match answer st 2 with
            | DevRaise e => (Raise e, advance 3 connect_close_events st)
            | DevOk _ => (outcome_result (answer st 3), advance 4 connect_retry_events st)
            end
        | DevRaise e => (Raise e, advance 2 connect_first_events st)
        end
    end.
Proof.
  unfold connect, bind, try_except. rewrite device_call_run.
  destruct (answer st 0) as [p0|e0]; cbn [payload_result]; [|reflexivity].
  rewrite _open_run, advance_advance, answer_advance. cbn [Nat.add app].
  destruct (answer st 1) as [p1|e1]; cbn [outcome_result]; [reflexivity|].
  destruct e1; cbn [is_USBError exn_eqb]; try reflexivity.
  rewrite !log_run, !advance_advance, _close_run, advance_advance, answer_advance.
  cbn [Nat.add app].
  destruct (answer st 2) as [p2|e2]; cbn [outcome_result]; [|reflexivity].
  rewrite _open_run, advance_advance, answer_advance. reflexivity.
Qed.

Lemma disconnect_run st :
  disconnect st =
    match answer st 0 with
    | DevRaise e => (Raise e, advance 1 [EvLog DEBUG "close device" []; close_call] st)
    | DevOk _ =>
        (outcome_result (answer st 1),
         advance 2 [EvLog DEBUG "close device" []; close_call; EvRelease] st)
    end.
Proof.
  unfold disconnect, bind. rewrite _close_run.
  destruct (answer st 0) as [p0|e0]; cbn [outcome_result]; [|reflexivity].
  rewrite device_call_run, advance_advance, answer_advance. cbn [Nat.add app].
  by destruct (answer st 1).
Qed.

Lemma connect_events_counts :
  closes connect_first_events = 0%nat ∧ opens connect_first_events = 1%nat ∧
  closes connect_close_events = 1%nat ∧ opens connect_close_events = 1%nat ∧
  closes connect_retry_events = 1%nat ∧ opens connect_retry_events = 2%nat.
Proof. repeat split. Qed.

Lemma connect_events_calls :
  device_calls connect_first_events = [EvAttach; open_call] ∧
  device_calls connect_close_events = [EvAttach; open_call; close_call] ∧
  device_calls connect_retry_events = [EvAttach; open_call; close_call; open_call].
Proof. repeat split. Qed.

Ltac connect_counts :=
  let H := fresh in
  pose proof connect_events_counts as H;
  destruct H as (Hc1 & Ho1 & Hc2 & Ho2 & Hc3 & Ho3);
  pose proof connect_events_calls as H;
  destruct H as (Hd1 & Hd2 & Hd3);
  cbn [fst snd succeeds outcome_result];
  rewrite ?Hc1, ?Ho1, ?Hc2, ?Ho2, ?Hc3, ?Ho3, ?Hd1, ?Hd2, ?Hd3;
  repeat split; try done; try lia.

(** C2 (as amended).  Once the base class has attached the device,
    [connect] calls [_open]; it calls [_close] exactly once if and only if
    that first [_open] failed with a transport error, and never more than
    once; when that [_close] succeeds it calls [_open] a second and last
    time, whose outcome is the outcome of [connect]; when the [_close]
    itself raises, that exception reaches the caller and [_open] is not
    called again; any other outcome of the first [_open] is the outcome of
    [connect]. *)
Theorem connect_retries_open_once st :
  succeeds (answer st 0) = true →
  ∃ evs, emits st (connect st).2 evs ∧
    (answer st 1 = DevRaise USBError ↔ closes evs = 1%nat) ∧
    (closes evs ≤ 1)%nat ∧ (opens evs ≤ 2)%nat ∧
    (answer st 1 ≠ DevRaise USBError →
       device_calls evs = [EvAttach; open_call] ∧
       (connect st).1 = outcome_result (answer st 1)) ∧
    (answer st 1 = DevRaise USBError → succeeds (answer st 2) = true →
       device_calls evs = [EvAttach; open_call; close_call; open_call] ∧
       (connect st).1 = outcome_result (answer st 3)) ∧
    (answer st 1 = DevRaise USBError → succeeds (answer st 2) = false →
       device_calls evs = [EvAttach; open_call; close_call] ∧
       (connect st).1 = outcome_result (answer st 2)).
Proof.
  intros Hattach. rewrite connect_run.
  destruct (answer st 0) as [p0|e0]; [clear Hattach|discriminate].
  destruct (answer st 1) as [p1|e1].
  { exists connect_first_events. connect_counts. }
  destruct e1; try solve [exists connect_first_events; connect_counts].
  destruct (answer st 2) as [p2|e2].
  - exists connect_retry_events. connect_counts.
  - exists connect_close_events. connect_counts.
Qed.

Lemma connect_retries_open_once_witness :
  (connect flaky_bridge).1 = Ok tt ∧
  device_calls (trace (connect flaky_bridge).2) =
    [EvAttach; open_call; close_call; open_call].
Proof.
  destruct (connect_retries_open_once flaky_bridge eq_refl)
    as (evs & Hevs & _ & _ & _ & _ & Hretry & _).
  destruct (Hretry eq_refl eq_refl) as [Hcalls Hres].
  split; [exact Hres|].
  rewrite Hevs. exact Hcalls.
Defined.

(** C2 (as stated) fails when the [_close] that follows the failed
    [_open] raises as well: [_open] failed with a transport error, yet it is
    called once only, and the exception of [_close] ends [connect]. *)
Lemma connect_close_failure_no_retry :
  answer stuck_bridge 1 = DevRaise USBError ∧
  (connect stuck_bridge).1 = Raise USBError ∧
  device_calls (trace (connect stuck_bridge).2) = [EvAttach; open_call; close_call] ∧
  opens (trace (connect stuck_bridge).2) = 1%nat.
Proof. repeat split. Qed.

Lemma advance_0_nil st : advance 0 [] st = st.
Proof. destruct st. unfold advance; cbn. by rewrite app_nil_r. Qed.

(** ** Fixed speeds *)

Lemma clip_range lo hi x : lo ≤ hi → lo ≤ clip lo hi x ≤ hi.
Proof. unfold clip. lia. Qed.

(** The two comparisons of [_send_fixed_speed] compute [clip] whenever the
    bounds are ordered. *)
Lemma clamp_branches lo hi x :
  lo ≤ hi →
  (if x <? lo then lo else if x >? hi then hi else x) = clip lo hi x.
Proof.
  intros Hle. unfold clip.
  destruct (Z.ltb_spec x lo); [lia|].
  rewrite Z.gtb_ltb. destruct (Z.ltb_spec hi x); lia.
Qed.








(** ** Best-effort paths *)

Lemma set_fixed_speed_read_failure channel speed st st1 st2 :
  is_Some (_FIXED_SPEED_CHANNELS !! channel) →
  (_begin_transaction ;; _send_fixed_speed channel speed) st = (Ok tt, st1) →
  _end_transaction_and_read st1 = (Raise USBError, st2) →
  set_fixed_speed channel speed st =
    (Ok tt, advance 0 [EvLog WARNING "report: failed to read after setting speed" [];
                       EvLog DEBUG "%s" [AExc USBError]] st2).
Proof.
  intros Hch Hpre Hread. unfold set_fixed_speed.
  rewrite (fixed_channel_not_sync _ Hch). destruct Hch as [v ->].
  unfold bind, try_except in *.
  destruct (_begin_transaction st) as [[[]|e0] st0]; [|discriminate].
  destruct (_send_fixed_speed channel speed st0) as [[[]|e1] st1']; [|discriminate].
  injection Hpre as ->. rewrite Hread. cbn [is_USBError exn_eqb].
  rewrite !log_run, advance_advance. reflexivity.
Qed.

(** C6 (as amended).  The read that ends [set_fixed_speed] on a channel of
    the fixed-speed table (['fan'], ['pump']) is best-effort: when it fails
    with a transport error the call logs a warning and returns normally.
    [disconnect] is not: an exception raised by [_close] reaches the caller,
    and the base class is not asked to release the device. *)
Theorem best_effort_paths channel speed st st1 st2 e :
  (is_Some (_FIXED_SPEED_CHANNELS !! channel) →
   (_begin_transaction ;; _send_fixed_speed channel speed) st = (Ok tt, st1) →
   _end_transaction_and_read st1 = (Raise USBError, st2) →
   (set_fixed_speed channel speed st).1 = Ok tt ∧
   ∃ evs, emits st2 (set_fixed_speed channel speed st).2 evs ∧
          warnings evs = [EvLog WARNING "report: failed to read after setting speed" []]) ∧
  (answer st 0 = DevRaise e →
   (disconnect st).1 = Raise e ∧
   ∃ evs, emits st (disconnect st).2 evs ∧ device_calls evs = [close_call]).
Proof.
  split.
  - intros Hch Hpre Hread.
    rewrite (set_fixed_speed_read_failure _ _ _ _ _ Hch Hpre Hread).
    split; [reflexivity|]. eexists. split; [apply emits_advance|reflexivity].
  - intros Hclose. rewrite disconnect_run, Hclose.
    split; [reflexivity|]. eexists. split; [apply emits_advance|reflexivity].
Qed.

Lemma best_effort_paths_witness :
  (set_fixed_speed "fan" 50 (failing_at 2 false)).1 = Ok tt ∧
  (disconnect (failing_at 0 false)).1 = Raise USBError.
Proof.
  set (st1 := ((_begin_transaction ;; _send_fixed_speed "fan" 50) (failing_at 2 false)).2).
  set (st2 := (_end_transaction_and_read st1).2).
  destruct (best_effort_paths "fan" 50 (failing_at 2 false) st1 st2 USBError) as [Hfan _].
  destruct (best_effort_paths "fan" 50 (failing_at 0 false) st1 st2 USBError) as [_ Hdis].
  split.
  - exact (proj1 (Hfan (ex_intro _ _ eq_refl) eq_refl eq_refl)).
  - exact (proj1 (Hdis eq_refl)).
Defined.

(** C6 (as stated) fails for [disconnect]: a transport error in [_close]
    is raised to the caller, and the device is not released. *)
Lemma disconnect_raises_close_failure :
  (disconnect (failing_at 0 false)).1 = Raise USBError ∧
  device_calls (trace (disconnect (failing_at 0 false)).2) = [close_call].
Proof. repeat split. Qed.

(** The ['sync'] pseudo channel has no handler around its final read either:
    there a transport error of the read is raised. *)
Lemma set_fixed_speed_sync_read_failure :
  (set_fixed_speed "sync" 50 (failing_at 3 false)).1 = Raise USBError ∧
  transport_writes (trace (set_fixed_speed "sync" 50 (failing_at 3 false)).2)
    = [[0x13; 50]; [0x12; 50]].
Proof. repeat split. Qed.

(** ** Status *)

Lemma status_frame_run st :
  status_frame st =
    match answer st 0 with
    | DevRaise e => (Raise e, advance 1 begin_events st)
    | DevOk _ =>
        let w := (if dry_run st then 0 else 1)%nat in
        let sent := begin_events ++ EvLoad :: write_events (dry_run st) (data_file st) in
        match (if dry_run st then DevOk [] else answer st 1) with
        | DevRaise e => (Raise e, advance (1 + w) sent st)
        | DevOk _ =>
            match answer st (1 + w) with
            | DevRaise e => (Raise e, advance (2 + w) (sent ++ [read_call]) st)
            | DevOk msg =>
                (match answer st (2 + w) with DevRaise e => Raise e | DevOk _ => Ok msg end,
                 advance (3 + w) (sent ++ read_events msg) st)
            end
        end
    end.
Proof.
  unfold status_frame, bind. rewrite _begin_transaction_run.
  destruct (answer st 0) as [p0|e0]; cbn [outcome_result]; [|reflexivity].
  rewrite _send_dummy_command_run, dry_run_advance, data_file_advance,
    advance_advance, answer_advance.
  destruct (dry_run st); cbn [Nat.add].
  - rewrite _end_transaction_and_read_run, !answer_advance, !advance_advance.
    cbn [Nat.add]. destruct (answer st 1); by rewrite ?advance_advance.
  - destruct (answer st 1) as [p1|e1]; cbn [outcome_result]; [|reflexivity].
    rewrite _end_transaction_and_read_run, !answer_advance, !advance_advance.
    cbn [Nat.add]. destruct (answer st 2); by rewrite ?advance_advance.
Qed.



Lemma get_status_state st : (get_status st).2 = (status_frame st).2.
Proof.
  unfold get_status, status_frame, bind, lift.
  destruct (_begin_transaction st) as [[[]|e0] st0]; [|done].
  destruct (_send_dummy_command st0) as [[[]|e1] st1]; [|done].
  destruct (_end_transaction_and_read st1) as [[msg|e2] st2]; [|done].
  destruct (format_firmware _); [|done].
  repeat (destruct (getitem msg _); [|done]). done.
Qed.

Lemma length_slice msg a b :
  length (slice msg a b) = ((b - a) `min` (length msg - a))%nat.
Proof. unfold slice. by rewrite length_take, length_drop. Qed.

Lemma format_firmware_short args :
  (length args < 4)%nat → format_firmware args = Raise IndexError.
Proof.
  destruct args as [|a [|b [|c [|d args]]]]; cbn; try done. lia.
Qed.

Lemma getitem_lt msg i :
  (i < length msg)%nat → getitem msg i = Ok (frame_byte msg i).
Proof.
  intros [x Hx]%lookup_lt_is_Some. unfold getitem, frame_byte. by rewrite Hx.
Qed.

Lemma format_firmware_slice msg :
  (27 ≤ length msg)%nat →
  format_firmware (slice msg 0x17 0x1b) =
    Ok (pretty (frame_byte msg 0x17) +:+ "." +:+ pretty (frame_byte msg 0x18) +:+ "."
        +:+ pretty (frame_byte msg 0x19) +:+ "." +:+ pretty (frame_byte msg 0x1a)).
Proof.
  intros Hlen.
  do 27 (destruct msg as [|? msg]; [cbn in Hlen; lia|]).
  reflexivity.
Qed.

Lemma get_status_truncated_raise st msg st' :
  status_frame st = (Ok msg, st') → (length msg < 27)%nat →
  get_status st = (Raise IndexError, st').
Proof.
  unfold get_status, status_frame, bind, lift. intros H Hlen.
  destruct (_begin_transaction st) as [[[]|e0] st0]; [|done].
  destruct (_send_dummy_command st0) as [[[]|e1] st1]; [|done].
  rewrite H. rewrite format_firmware_short; [done|].
  rewrite length_slice. lia.
Qed.

Lemma get_status_decode st msg st' :
  status_frame st = (Ok msg, st') → (27 ≤ length msg)%nat →
  get_status st = (Ok (decode msg), st').
Proof.
  unfold get_status, status_frame, bind, lift. intros H Hlen.
  destruct (_begin_transaction st) as [[[]|e0] st0]; [|done].
  destruct (_send_dummy_command st0) as [[[]|e1] st1]; [|done].
  rewrite H, format_firmware_slice by done.
  rewrite !getitem_lt by lia. reflexivity.
Qed.

(** C1.  Whenever the transaction of [get_status] delivers a 32-byte frame,
    [get_status] returns the report in which the liquid temperature is
    [frame[10] + frame[14]/10] °C, the fan speed [frame[0]<<8 | frame[1]]
    rpm, the pump speed [frame[8]<<8 | frame[9]] rpm and the firmware
    version the bytes [frame[0x17..0x1a]] joined with dots; a frame that
    starts with [0x0b, 0xb8] reports 3000 rpm for the fan, and one with
    [0x03, 0xe8] at offsets 8 and 9 reports 1000 rpm for the pump. *)
Theorem get_status_report st st' frame :
  status_frame st = (Ok frame, st') →
  length frame = 32%nat →
  get_status st = (Ok (decode frame), st') ∧
  (take 2 frame = [0x0b; 0xb8] →
     report_entry "Fan speed" (decode frame) = Some (VInt 3000, "rpm")) ∧
  (take 2 (drop 8 frame) = [0x03; 0xe8] →
     report_entry "Pump speed" (decode frame) = Some (VInt 1000, "rpm")).
Proof.
  intros Hframe Hlen. split; [|split].
  - apply get_status_decode; [done|lia].
  - destruct frame as [|b0 [|b1 frame]]; try done. by intros [= -> ->].
  - do 10 (destruct frame as [|? frame]; [done|]). by intros [= -> ->].
Qed.

Lemma get_status_report_witness :
  (get_status (answering sample_frame false)).1 =
    Ok [ ("Liquid temperature", VFloat (QArith_base.Qplus (QArith_base.inject_Z 30)
                                                          (QArith_base.Qmake 3 10)), "°C");
         ("Fan speed", VInt 3000, "rpm");
         ("Pump speed", VInt 1000, "rpm");
         ("Firmware version", VStr "1.2.3.4", EmptyString) ].
Proof.
  destruct (get_status_report (answering sample_frame false)
              (status_frame (answering sample_frame false)).2 sample_frame eq_refl eq_refl)
    as [Hrep _].
  rewrite Hrep. reflexivity.
Defined.


(** C8.  Whenever the transaction of [get_status] delivers a frame of
    fewer than 27 bytes, [get_status] fails, with the [IndexError] that
    formatting the firmware version raises; for every frame of at least 27
    bytes it returns the report. *)
Theorem get_status_truncated_frame st st' frame :
  status_frame st = (Ok frame, st') →
  ((length frame < 27)%nat → get_status st = (Raise IndexError, st')) ∧
  ((27 ≤ length frame)%nat → get_status st = (Ok (decode frame), st')).
Proof.
  intros Hframe. split; intros Hlen.
  - by apply get_status_truncated_raise with frame.
  - by apply get_status_decode.
Qed.

Lemma get_status_truncated_frame_witness :
  (get_status (answering (take 26 sample_frame) false)).1 = Raise IndexError ∧
  (get_status (answering (take 27 sample_frame) false)).1 = Ok (decode (take 27 sample_frame)).
Proof.
  destruct (get_status_truncated_frame (answering (take 26 sample_frame) false)
              (status_frame (answering (take 26 sample_frame) false)).2
              (take 26 sample_frame) eq_refl) as [Hshort _].
  destruct (get_status_truncated_frame (answering (take 27 sample_frame) false)
              (status_frame (answering (take 27 sample_frame) false)).2
              (take 27 sample_frame) eq_refl) as [_ Hlong].
  split.
  - rewrite Hshort; [reflexivity|]. cbn. lia.
  - rewrite Hlong; [reflexivity|]. cbn. lia.
Defined.

(** ** Order of the status transaction *)

Ltac not_in_list H :=
  repeat (apply elem_of_cons in H as [H|H]; [discriminate H|]);
  by apply elem_of_nil in H.





(** ** The clamp pass *)

Lemma clamp_loop_app lo hi rest :
  ∀ done,
    clamp_loop (length rest) (length done) lo hi (done ++ rest) =
    done ++ map (clamp_point lo hi) rest.
Proof.
  induction rest as [|[temp duty] rest IH]; intros done; [reflexivity|].
  cbn [length clamp_loop]. rewrite list_lookup_middle by reflexivity.
  assert ((if duty <? lo then <[length done := (temp, lo)]> (done ++ (temp, duty) :: rest)
           else if duty >? hi then <[length done := (temp, hi)]> (done ++ (temp, duty) :: rest)
           else done ++ (temp, duty) :: rest)
          = (done ++ [clamp_point lo hi (temp, duty)]) ++ rest) as ->.
  { unfold clamp_point; cbn [fst snd]. rewrite <- app_assoc. cbn [app].
    destruct (duty <? lo); [|destruct (duty >? hi)]; try reflexivity.
    all: rewrite <- (Nat.add_0_r (length done)) at 1; by rewrite insert_app_r. }
  replace (S (length done)) with (length (done ++ [clamp_point lo hi (temp, duty)]))
    by (rewrite length_app; cbn; lia).
  rewrite IH, <- app_assoc. reflexivity.
Qed.

Lemma clamp_pass_map lo hi opt : clamp_pass lo hi opt = map (clamp_point lo hi) opt.
Proof. exact (clamp_loop_app lo hi opt []). Qed.

Lemma clamp_point_range lo hi p : lo ≤ hi → lo ≤ (clamp_point lo hi p).2 ≤ hi.
Proof.
  intros Hle. unfold clamp_point; cbn [snd].
  rewrite clamp_branches by done. by apply clip_range.
Qed.

Lemma clamp_pass_props lo hi opt :
  lo ≤ hi →
  length (clamp_pass lo hi opt) = length opt ∧
  map fst (clamp_pass lo hi opt) = map fst opt ∧
  Forall (λ p, lo ≤ p.2 ≤ hi) (clamp_pass lo hi opt) ∧
  map snd (clamp_pass lo hi opt) = map (clip lo hi) (map snd opt).
Proof.
  intros Hle. rewrite clamp_pass_map. repeat split.
  - by rewrite length_map.
  - rewrite <- !list_fmap_compose. by apply list_fmap_ext.
  - apply Forall_fmap, Forall_true. intros p. by apply clamp_point_range.
  - rewrite <- !list_fmap_compose. apply list_fmap_ext. intros i p _.
    unfold clamp_point; cbn. by apply clamp_branches.
Qed.

(** C3.  For a channel of either table, with its bounds, and whatever
    normalize and autofill return, the clamp pass of [_prepare_profile]
    raises nothing of its own and yields a profile of the same length, with
    the same temperatures in the same places and every duty within the
    bounds (each duty being the input duty clipped into them). *)
Theorem prepare_profile_clamp
    (normalize_profile autofill_profile : list (Z * Z) → Z → result (list (Z * Z)))
    channel mtype dmin dmax profile norm opt :
  _VARIABLE_SPEED_CHANNELS !! channel = Some (mtype, dmin, dmax)
    ∨ _FIXED_SPEED_CHANNELS !! channel = Some (mtype, dmin, dmax) →
  normalize_profile profile _CRITICAL_TEMPERATURE = Ok norm →
  autofill_profile norm _MAX_PROFILE_POINTS = Ok opt →
  ∃ out,
    _prepare_profile normalize_profile autofill_profile profile dmin dmax = Ok out ∧
    out = clamp_pass dmin dmax opt ∧
    length out = length opt ∧
    map fst out = map fst opt ∧
    Forall (λ p, dmin ≤ p.2 ≤ dmax) out ∧
    map snd out = map (clip dmin dmax) (map snd opt).
Proof.
  intros Hch Hnorm Hfill.
  assert (dmin ≤ dmax) as Hle.
  { destruct Hch as [[_ [= _ -> ->]]%variable_channel_inv|Hch]; [lia|].
    by apply fixed_channel_bounds in Hch. }
  exists (clamp_pass dmin dmax opt).
  unfold _prepare_profile. rewrite Hnorm, Hfill.
  split; [reflexivity|]. split; [reflexivity|].
  by apply clamp_pass_props.
Qed.

Lemma prepare_profile_clamp_witness :
  _prepare_profile keep_profile keep_profile [(20, 10); (35, 50); (60, 120)] 30 100
    = Ok [(20, 30); (35, 50); (60, 100)].
Proof.
  destruct (prepare_profile_clamp keep_profile keep_profile "fan" 0x11 30 100
              [(20, 10); (35, 50); (60, 120)] _ _ (or_introl eq_refl) eq_refl eq_refl)
    as (out & Hout & -> & _).
  exact Hout.
Defined.

(** ** Write, then read *)

Lemma write_requests_app evs1 evs2 :
  write_requests (evs1 ++ evs2) = write_requests evs1 ++ write_requests evs2.
Proof.
  induction evs1 as [|e evs1 IH]; [reflexivity|].
  destruct e as [| | | | | | | |[] fmt [|[] []]]; cbn; try done.
  destruct (String.eqb fmt "write %s"); cbn; by rewrite ?IH.
Qed.

Lemma transport_writes_app evs1 evs2 :
  transport_writes (evs1 ++ evs2) = transport_writes evs1 ++ transport_writes evs2.
Proof.
  induction evs1 as [|e evs1 IH]; [reflexivity|].
  destruct e; cbn; by rewrite ?IH.
Qed.


Lemma warnings_app evs1 evs2 : warnings (evs1 ++ evs2) = warnings evs1 ++ warnings evs2.
Proof. apply List.filter_app. Qed.

(** The tail shared by [set_speed_profile] and [set_color]: one [_write],
    then the read that ends the transaction. *)
Lemma write_read_done data st :
  ∃ r k evs,
    (_write data ;; _end_transaction_and_read ;; ret tt) st = (r, advance k evs st) ∧
    write_requests evs = [data] ∧
    transport_writes evs = (if dry_run st then [] else [data]) ∧
    warnings evs = [] ∧
    ((∀ n, succeeds (answer st n) = true) → r = Ok tt) ∧
    (∀ e, r = Raise e → ∃ n, answer st n = DevRaise e).
Proof.
  unfold bind. rewrite _write_run.
  assert (∀ (st1 : state) pre k0,
    st1 = advance k0 pre st →
    write_requests pre = [data] →
    transport_writes pre = (if dry_run st then [] else [data]) →
    warnings pre = [] →
    ∃ r k evs,
      (let (r0, st2) := _end_transaction_and_read st1 in
       match r0 with Ok _ => ret tt st2 | Raise e => (Raise e, st2) end)
        = (r, advance k evs st) ∧
      write_requests evs = [data] ∧
      transport_writes evs = (if dry_run st then [] else [data]) ∧
      warnings evs = [] ∧
      ((∀ n, succeeds (answer st n) = true) → r = Ok tt) ∧
      (∀ e, r = Raise e → ∃ n, answer st n = DevRaise e)) as Hread.
  { intros st1 pre k0 -> Hreq Htw Hwarn.
    rewrite _end_transaction_and_read_run, !answer_advance.
    destruct (answer st (k0 + 0)) as [msg|e] eqn:H0.
    - destruct (answer st (k0 + 1)) as [p|e] eqn:H1.
      + eexists _, _, _. rewrite advance_advance. split; [reflexivity|].
        rewrite write_requests_app, transport_writes_app, warnings_app, Hreq, Htw, Hwarn.
        repeat split; try done. by destruct (dry_run st).
      + eexists _, _, _. rewrite advance_advance. split; [reflexivity|].
        rewrite write_requests_app, transport_writes_app, warnings_app, Hreq, Htw, Hwarn.
        repeat split; try done; [by destruct (dry_run st)| |].
        * intros Hall. specialize (Hall (k0 + 1)%nat). by rewrite H1 in Hall.
        * intros ? [= <-]. eauto.
    - eexists _, _, _. rewrite advance_advance. split; [reflexivity|].
      rewrite write_requests_app, transport_writes_app, warnings_app, Hreq, Htw, Hwarn.
      repeat split; try done; [by destruct (dry_run st)| |].
      + intros Hall. specialize (Hall (k0 + 0)%nat). by rewrite H0 in Hall.
      + intros ? [= <-]. eauto. }
  destruct (dry_run st) eqn:Hdry.
  - eapply Hread; [reflexivity|..]; reflexivity.
  - destruct (answer st 0) as [p|e] eqn:H0; cbn [outcome_result].
    + eapply Hread; [reflexivity|..]; reflexivity.
    + eexists _, _, _. split; [reflexivity|]. repeat split; try done.
      * intros Hall. specialize (Hall 0%nat). by rewrite H0 in Hall.
      * intros ? [= <-]. eauto.
Qed.

(** ** Speed profiles *)

Lemma log_profile_run channel opt st :
  log_profile channel opt st = (Ok tt, advance 0 (profile_log channel opt) st).
Proof.
  revert st. induction opt as [|[temp duty] opt IH]; intros st.
  - cbn. by rewrite advance_0_nil.
  - cbn [log_profile]. unfold bind. rewrite log_run, IH, advance_advance. reflexivity.
Qed.

Lemma profile_log_silent channel opt :
  device_calls (profile_log channel opt) = [] ∧
  write_requests (profile_log channel opt) = [] ∧
  transport_writes (profile_log channel opt) = [].
Proof. induction opt as [|p opt (? & ? & ?)]; by cbn. Qed.

Lemma length_profile_frame mtype opt :
  length (profile_frame mtype opt) = (2 + 2 * length opt)%nat.
Proof. unfold profile_frame. cbn. rewrite length_app, !length_map. lia. Qed.

Lemma set_speed_profile_run
    (normalize_profile autofill_profile : list (Z * Z) → Z → result (list (Z * Z)))
    channel profile mtype dmin dmax opt st :
  _VARIABLE_SPEED_CHANNELS !! channel = Some (mtype, dmin, dmax) →
  _prepare_profile normalize_profile autofill_profile profile dmin dmax = Ok opt →
  set_speed_profile normalize_profile autofill_profile channel profile st =
    match opt with
    | [] => (Raise ValueError, advance 0 (profile_log channel opt) st)
    | _ =>
        let st1 := advance 1 (profile_log channel opt ++ begin_events) st in
        match answer st 0 with
        | DevRaise e => (Raise e, st1)
        | DevOk _ =>
            (_write (profile_frame mtype opt) ;; _end_transaction_and_read ;; ret tt) st1
        end
    end.
Proof.
  intros Hch Hprep.
  unfold set_speed_profile. rewrite Hch. unfold bind at 1, lift at 1. rewrite Hprep.
  unfold bind at 1. rewrite log_profile_run.
  destruct opt as [|p opt]; [reflexivity|].
  unfold bind at 1, lift at 1, unzip_profile. cbn [fst snd].
  unfold bind at 1. rewrite _begin_transaction_run, advance_advance, answer_advance.
  cbn [Nat.add]. by destruct (answer st 0).
Qed.

(** C4 (as amended).  For a channel of the variable-speed table and a
    profile that [_prepare_profile] accepts, [set_speed_profile] passes to
    [_write] exactly one frame, once begin-transaction has succeeded: the
    message type of the channel, a 0, the temperatures of the prepared
    profile in order, then its duties in order, one list element each; that
    is 14 bytes when the prepared profile has 6 points.  The frame reaches
    the device unless the driver is in dry-run mode.  [set_speed_profile]
    does not check the length of the prepared profile: any non-empty one is
    encoded and sent, and the call returns normally when the device raises
    nothing; an empty one fails with [ValueError] before any device call. *)
Theorem set_speed_profile_frame
    (normalize_profile autofill_profile : list (Z * Z) → Z → result (list (Z * Z)))
    channel profile mtype dmin dmax opt st :
  _VARIABLE_SPEED_CHANNELS !! channel = Some (mtype, dmin, dmax) →
  _prepare_profile normalize_profile autofill_profile profile dmin dmax = Ok opt →
  let run := set_speed_profile normalize_profile autofill_profile channel profile st in
  let frame := profile_frame mtype opt in
  ∃ evs, emits st run.2 evs ∧
    (opt = [] → run.1 = Raise ValueError ∧ device_calls evs = []) ∧
    (opt ≠ [] →
       write_requests evs = (if succeeds (answer st 0) then [frame] else []) ∧
       transport_writes evs =
         (if succeeds (answer st 0) && negb (dry_run st) then [frame] else []) ∧
       ((∀ n, succeeds (answer st n) = true) → run.1 = Ok tt) ∧
       (∀ e, run.1 = Raise e → ∃ n, answer st n = DevRaise e)) ∧
    length frame = (2 + 2 * length opt)%nat ∧
    (length opt = 6%nat → length frame = 14%nat).
Proof.
  intros Hch Hprep run frame. subst run.
  rewrite (set_speed_profile_run _ _ _ _ _ _ _ _ _ Hch Hprep).
  destruct (profile_log_silent channel opt) as (Hdc & Hwr & Htw).
  pose proof (length_profile_frame mtype opt) as Hlen. fold frame in Hlen.
  destruct opt as [|p opt].
  { eexists. split; [apply emits_advance|]. repeat split; done. }
  cbn zeta.
  destruct (answer st 0) as [p0|e0] eqn:H0; cbn [outcome_result succeeds andb fst snd].
  2:{ eexists. split; [apply emits_advance|].
      rewrite write_requests_app, transport_writes_app, Hwr, Htw.
      repeat split; try done; try lia.
      - intros Hall. specialize (Hall 0%nat). by rewrite H0 in Hall.
      - intros ? [= <-]. eauto. }
  destruct (write_read_done frame (advance 1 (profile_log channel (p :: opt) ++ begin_events) st))
    as (r & k & evs & Hrun & Hreq & Htr & _ & Hok & Hraise).
  fold frame. rewrite Hrun, advance_advance. rewrite dry_run_advance in Htr.
  cbn [fst snd].
  eexists. split; [apply emits_advance|].
  rewrite !write_requests_app, !transport_writes_app, Hwr, Htw, Hreq, Htr.
  repeat split; try done; try lia.
  - by destruct (dry_run st).
  - intros Hall. apply Hok. intros n. rewrite answer_advance. apply Hall.
  - intros e He. destruct (Hraise e He) as [n Hn]. rewrite answer_advance in Hn. eauto.
Qed.

Lemma set_speed_profile_frame_witness :
  transport_writes
    (trace (set_speed_profile keep_profile keep_profile "fan"
              [(20, 30); (30, 40); (40, 50); (50, 70); (55, 90); (60, 100)]
              (quiet_device false)).2)
    = [[0x11; 0; 20; 30; 40; 50; 55; 60; 30; 40; 50; 70; 90; 100]].
Proof.
  destruct (set_speed_profile_frame keep_profile keep_profile "fan"
              [(20, 30); (30, 40); (40, 50); (50, 70); (55, 90); (60, 100)]
              0x11 30 100 _ (quiet_device false) eq_refl eq_refl)
    as (evs & Hevs & _ & Hsent & _).
  rewrite Hevs. exact (proj1 (proj2 (Hsent ltac:(discriminate)))).
Defined.

(** C4 (as stated) has a prepared profile of any length other than 6
    rejected before any write.  With a prepared profile of three points the
    call encodes an 8-byte frame, writes it and returns normally. *)
Lemma set_speed_profile_writes_short_profile :
  _prepare_profile keep_profile keep_profile [(20, 30); (40, 60); (60, 100)] 30 100
    = Ok [(20, 30); (40, 60); (60, 100)] ∧
  (set_speed_profile keep_profile keep_profile "fan" [(20, 30); (40, 60); (60, 100)]
     (quiet_device false)).1 = Ok tt ∧
  transport_writes
    (trace (set_speed_profile keep_profile keep_profile "fan" [(20, 30); (40, 60); (60, 100)]
              (quiet_device false)).2)
    = [[0x11; 0; 20; 40; 60; 30; 60; 100]].
Proof. repeat split. Qed.

(** ** Lighting *)

Lemma set_color_speed_run speed st :
  set_color_speed speed st = (Ok (speed_value speed), advance 0 (speed_events speed) st).
Proof.
  unfold set_color_speed, speed_value, speed_events, bind.
  destruct speed as [n|s].
  - destruct ((n <? 1) || (n >? 255)); [reflexivity|]. by rewrite advance_0_nil.
  - destruct (speeds !! s); [|reflexivity]. by rewrite advance_0_nil.
Qed.

Lemma set_color_colors_run mode colors st :
  set_color_colors mode colors st =
    if negb (String.eqb mode "off") && bool_decide (colors = [])
    then (Raise ValueError, st)
    else (Ok (chosen_colors mode colors), advance 0 (color_events mode colors) st).
Proof.
  unfold set_color_colors, chosen_colors, color_events.
  destruct (String.eqb mode "off"); cbn [negb andb].
  { by rewrite advance_0_nil. }
  destruct colors as [|c1 [|c2 [|c3 colors]]]; cbn; try done.
  all: by rewrite advance_0_nil.
Qed.

Lemma mode_supported mode :
  mode ∈ modes → bool_decide (mode ∈ modes) = true.
Proof. intros H. by apply bool_decide_eq_true. Qed.

Lemma set_color_run channel mode colors speed st :
  mode ∈ modes →
  set_color channel mode colors speed st =
    if negb (String.eqb mode "off") && bool_decide (colors = [])
    then (Raise ValueError, advance 0 (speed_events speed ++ channel_events channel) st)
    else
      let cc := chosen_colors mode colors in
      let frame := lighting_frame cc.1 cc.2 (speed_value speed) mode in
      let st1 := advance 1 (color_preamble channel mode colors speed) st in
      match answer st 0 with
      | DevRaise e => (Raise e, st1)
      | DevOk _ =>
          (_write frame ;; _end_transaction_and_read ;; ret tt)
            (set_data_file frame (advance 0 [EvSave frame] st1))
      end.
Proof.
  intros Hmode. unfold set_color, color_preamble.
  unfold bind at 1. rewrite set_color_speed_run.
  unfold bind at 1.
  assert ((if negb (String.eqb channel "logo")
           then log WARNING only_logo_message [] else ret tt)
            (advance 0 (speed_events speed) st)
          = (Ok tt, advance 0 (speed_events speed ++ channel_events channel) st)) as ->.
  { unfold channel_events. destruct (String.eqb channel "logo"); cbn [negb].
    - by rewrite app_nil_r.
    - by rewrite log_run, advance_advance. }
  unfold bind at 1. rewrite (mode_supported _ Hmode). cbn [ret].
  unfold bind at 1. rewrite set_color_colors_run.
  destruct (negb (String.eqb mode "off") && bool_decide (colors = [])); [reflexivity|].
  rewrite advance_advance.
  unfold bind at 1. rewrite _begin_transaction_run, advance_advance, answer_advance.
  rewrite <- !app_assoc. cbn [Nat.add].
  destruct (answer st 0); cbn [outcome_result]; reflexivity.
Qed.

Lemma accepted_colors mode (colors : list (list Z)) :
  mode = "off" ∨ colors ≠ [] →
  negb (String.eqb mode "off") && bool_decide (colors = []) = false.
Proof.
  intros [->|Hne]; [reflexivity|].
  rewrite (bool_decide_eq_false_2 _ Hne). apply andb_false_r.
Qed.

Lemma color_preamble_silent channel mode colors speed :
  transport_writes (color_preamble channel mode colors speed) = [] ∧
  write_requests (color_preamble channel mode colors speed) = [] ∧
  device_calls (color_preamble channel mode colors speed) = [begin_call] ∧
  warnings (color_preamble channel mode colors speed)
    = speed_events speed ++ channel_events channel ++ color_events mode colors.
Proof.
  unfold color_preamble, speed_events, channel_events, color_events.
  destruct speed as [n|s]; [destruct ((n <? 1) || (n >? 255))|destruct (speeds !! s)];
    destruct (String.eqb channel "logo");
    destruct (negb (String.eqb mode "off") && (2 <? length colors)%nat); done.
Qed.

Lemma length_lighting_frame mode (colors : list (list Z)) speed :
  mode = "off" ∨ colors ≠ [] →
  Forall (λ c : list Z, length c = 3%nat) colors →
  length (lighting_frame (chosen_colors mode colors).1 (chosen_colors mode colors).2
            speed mode) = 19%nat.
Proof.
  intros Hacc Hrgb. unfold lighting_frame, chosen_colors.
  destruct (String.eqb mode "off") eqn:Hoff; [reflexivity|].
  destruct Hacc as [->|Hne]; [done|].
  destruct colors as [|c1 colors]; [done|].
  apply Forall_cons in Hrgb as [H1 Hrgb].
  destruct colors as [|c2 colors]; cbn.
  - rewrite !length_app, H1. reflexivity.
  - apply Forall_cons in Hrgb as [H2 _]. rewrite !length_app, H1, H2. reflexivity.
Qed.

(** C10 (as amended).  In every [set_color] call that passes validation
    and whose begin-transaction succeeds, the new lighting frame (19 bytes
    for RGB triples) is saved to the data file before [_write] is reached:
    the save precedes every write in the trace, and at the end of the call
    the data file holds the new frame whatever happened afterwards: a write
    or a read that raised, or dry-run mode, in which nothing is written at
    all. *)
Theorem set_color_saves_before_write channel mode colors speed st :
  mode ∈ modes →
  mode = "off" ∨ colors ≠ [] →
  succeeds (answer st 0) = true →
  let run := set_color channel mode colors speed st in
  let frame := lighting_frame (chosen_colors mode colors).1 (chosen_colors mode colors).2
                 (speed_value speed) mode in
  data_file run.2 = frame ∧
  (∃ pre post, emits st run.2 (pre ++ EvSave frame :: post) ∧
     transport_writes pre = [] ∧ write_requests pre = [] ∧
     write_requests post = [frame] ∧
     transport_writes post = (if dry_run st then [] else [frame])) ∧
  (Forall (λ c : list Z, length c = 3%nat) colors → length frame = 19%nat).
Proof.
  intros Hmode Hacc Hbegin run frame. subst run.
  rewrite (set_color_run _ _ _ _ _ Hmode), (accepted_colors _ _ Hacc). cbn zeta. fold frame.
  destruct (answer st 0) as [p0|e0]; [clear Hbegin|done].
  destruct (color_preamble_silent channel mode colors speed) as (Htw & Hwr & _ & _).
  destruct (write_read_done frame
              (set_data_file frame
                 (advance 0 [EvSave frame] (advance 1 (color_preamble channel mode colors speed) st))))
    as (r & k & evs & Hrun & Hreq & Htr & _).
  rewrite Hrun. cbn [fst snd]. split; [reflexivity|]. split.
  - exists (color_preamble channel mode colors speed), evs.
    repeat split; try done.
    unfold emits; cbn. by rewrite <- !app_assoc.
  - by apply length_lighting_frame.
Qed.

Lemma set_color_saves_before_write_witness :
  (set_color "logo" "fixed" [[255; 0; 0]] (SpeedStr "normal") write_refused).1
    = Raise USBError ∧
  data_file (set_color "logo" "fixed" [[255; 0; 0]] (SpeedStr "normal") write_refused).2
    = [0x10; 255; 0; 0; 0; 0; 0; 0xff; 0; 0; 0x37; 3; 3; 1; 0; 0; 1; 0; 1].
Proof.
  split; [reflexivity|].
  destruct (set_color_saves_before_write "logo" "fixed" [[255; 0; 0]] (SpeedStr "normal")
              write_refused) as [Hsaved _].
  - set_solver.
  - by right.
  - reflexivity.
  - exact Hsaved.
Defined.

(** C10 (as stated) speaks of every call that passes validation.
    Begin-transaction comes before the frame is built and saved: when it
    raises, the call ends with that exception and the data file keeps its
    previous contents, not the new frame; dry-run mode makes no difference,
    as begin-transaction is issued there too. *)
Lemma set_color_begin_failure_saves_nothing :
  "fixed" ∈ modes ∧
  dry_run (failing_at 0 true) = true ∧
  (set_color "logo" "fixed" [[255; 0; 0]] (SpeedStr "normal") (failing_at 0 true)).1
    = Raise USBError ∧
  data_file (set_color "logo" "fixed" [[255; 0; 0]] (SpeedStr "normal") (failing_at 0 true)).2
    = DEFAULT_COLOR_STATE ∧
  data_file (set_color "logo" "fixed" [[255; 0; 0]] (SpeedStr "normal") (failing_at 0 true)).2
    ≠ lighting_frame [255; 0; 0] [0; 0; 0] 3 "fixed" ∧
  device_calls
    (trace (set_color "logo" "fixed" [[255; 0; 0]] (SpeedStr "normal") (failing_at 0 true)).2)
    = [begin_call] ∧
  (set_color "logo" "fixed" [[255; 0; 0]] (SpeedStr "normal") (failing_at 0 false)).1
    = Raise USBError ∧
  data_file (set_color "logo" "fixed" [[255; 0; 0]] (SpeedStr "normal") (failing_at 0 false)).2
    = DEFAULT_COLOR_STATE.
Proof. split; [set_solver|]. split_and!; done. Qed.

Lemma color_events_truncation mode (colors : list (list Z)) :
  truncation_warning ∈ color_events mode colors ↔
  mode ≠ "off" ∧ (2 < length colors)%nat.
Proof.
  unfold color_events.
  destruct (String.eqb_spec mode "off") as [->|Hne]; cbn [negb andb].
  { split; [by intros ?%elem_of_nil|by intros [? _]]. }
  destruct (Nat.ltb_spec 2 (length colors)).
  - split; [done|intros _; apply list_elem_of_here].
  - split; [by intros ?%elem_of_nil|lia].
Qed.

Lemma truncation_warning_only mode colors speed channel :
  truncation_warning ∈ speed_events speed ++ channel_events channel ++ color_events mode colors
  ↔ truncation_warning ∈ color_events mode colors.
Proof.
  rewrite !elem_of_app. split; [|by auto].
  intros [H|[H|H]]; [| |done].
  - unfold speed_events in H.
    destruct speed as [n|s]; [destruct ((n <? 1) || (n >? 255))|destruct (speeds !! s)];
      not_in_list H.
  - unfold channel_events in H. destruct (String.eqb channel "logo"); not_in_list H.
Qed.





(** * Further properties of the driver *)

(** ** Runs as transitions *)

Lemma last_saved_app d evs1 evs2 :
  last_saved d (evs1 ++ evs2) = last_saved (last_saved d evs1) evs2.
Proof.
  revert d. induction evs1 as [|e evs1 IH]; intros d; [reflexivity|].
  destruct e; cbn; apply IH.
Qed.

Lemma transition_0_nil st : transition 0 [] st = st.
Proof. destruct st. unfold transition; cbn. by rewrite app_nil_r. Qed.

Lemma transition_transition k1 k2 evs1 evs2 st :
  transition k2 evs2 (transition k1 evs1 st) = transition (k1 + k2) (evs1 ++ evs2) st.
Proof.
  unfold transition; cbn. by rewrite drop_drop, app_assoc, last_saved_app.
Qed.


Lemma transport_writes_dry_safe evs :
  Forall (λ e, dry_safe true e = true) evs → transport_writes evs = [].
Proof.
  induction 1 as [|e evs He _ IH]; [reflexivity|].
  destruct e; cbn in *; done.
Qed.

Section Respects.

Variable allowed : bool → event → bool.
Hypothesis allowed_log : ∀ dry lvl fmt args, allowed dry (EvLog lvl fmt args) = true.
Hypothesis allowed_load : ∀ dry, allowed dry EvLoad = true.
Hypothesis allowed_call :
  ∀ dry e, is_device_call e = true → is_transport_write e = false → allowed dry e = true.
Hypothesis allowed_write : ∀ e, is_device_call e = true → allowed false e = true.

Lemma respects_ret {A} (a : A) : respects allowed (ret a).
Proof. intros st. exists 0%nat, []. by rewrite transition_0_nil. Qed.

Lemma respects_raise {A} e : respects allowed (@raise A e).
Proof. intros st. exists 0%nat, []. by rewrite transition_0_nil. Qed.

Lemma respects_lift {A} (r : result A) : respects allowed (lift r).
Proof. intros st. exists 0%nat, []. by rewrite transition_0_nil. Qed.

Lemma respects_bind {A B} (m : M A) (k : A → M B) :
  respects allowed m → (∀ a, respects allowed (k a)) → respects allowed (bind m k).
Proof.
  intros Hm Hk st. unfold bind.
  destruct (Hm st) as (k1 & evs1 & Hst1 & Hall1).
  destruct (m st) as [[a|e] st1]; cbn [snd] in Hst1; subst st1; [|by eauto].
  destruct (Hk a (transition k1 evs1 st)) as (k2 & evs2 & Hst2 & Hall2).
  exists (k1 + k2)%nat, (evs1 ++ evs2).
  rewrite Hst2, transition_transition. split; [done|]. by apply Forall_app.
Qed.

Lemma respects_try_except {A} (m : M A) catches (h : exn → M A) :
  respects allowed m → (∀ e, respects allowed (h e)) → respects allowed (try_except m catches h).
Proof.
  intros Hm Hh st. unfold try_except.
  destruct (Hm st) as (k1 & evs1 & Hst1 & Hall1).
  destruct (m st) as [[a|e] st1]; cbn [snd] in Hst1; subst st1; [by eauto|].
  destruct (catches e); [|by eauto].
  destruct (Hh e (transition k1 evs1 st)) as (k2 & evs2 & Hst2 & Hall2).
  exists (k1 + k2)%nat, (evs1 ++ evs2).
  rewrite Hst2, transition_transition. split; [done|]. by apply Forall_app.
Qed.

Lemma respects_log lvl fmt args : respects allowed (log lvl fmt args).
Proof.
  intros st. exists 0%nat, [EvLog lvl fmt args]. split; [reflexivity|].
  by apply Forall_singleton.
Qed.

Lemma respects_from_yaml : respects allowed from_yaml.
Proof.
  intros st. exists 0%nat, [EvLoad]. split; [reflexivity|]. by apply Forall_singleton.
Qed.

Lemma respects_to_yaml data :
  (∀ dry, allowed dry (EvSave data) = true) → respects allowed (to_yaml data).
Proof.
  intros Hsave st. exists 0%nat, [EvSave data]. split; [reflexivity|].
  by apply Forall_singleton.
Qed.

Lemma respects_device_call e :
  is_device_call e = true → is_transport_write e = false →
  respects allowed (device_call e).
Proof.
  intros Hdev Hnw st. exists 1%nat, [e]. split; [|by apply Forall_singleton, allowed_call].
  rewrite device_call_run. by destruct e.
Qed.

Lemma respects_write data : respects allowed (_write data).
Proof.
  intros st. rewrite _write_run. destruct (dry_run st) eqn:Hdry.
  - exists 0%nat, (write_events true data). split; [reflexivity|].
    by apply Forall_singleton.
  - exists 1%nat, (write_events false data). split; [reflexivity|].
    apply Forall_cons; split; [done|]. by apply Forall_singleton, allowed_write.
Qed.

Ltac run_respects :=
  repeat first
    [ apply respects_ret | apply respects_raise | apply respects_lift
    | apply respects_log | apply respects_from_yaml | apply respects_write
    | apply respects_device_call; reflexivity
    | apply respects_bind; [|intros ?]
    | apply respects_try_except; [|intros ?]
    | match goal with
      | |- respects _ (match ?x with _ => _ end) => destruct x
      end ].

Lemma respects_open : respects allowed _open.
Proof. unfold _open, ctrl_transfer. run_respects. Qed.

Lemma respects_close : respects allowed _close.
Proof. unfold _close, ctrl_transfer. run_respects. Qed.

Lemma respects_begin_transaction : respects allowed _begin_transaction.
Proof. unfold _begin_transaction, ctrl_transfer. run_respects. Qed.

Lemma respects_end_transaction_and_read : respects allowed _end_transaction_and_read.
Proof. unfold _end_transaction_and_read. run_respects. Qed.

Lemma respects_send_dummy_command : respects allowed _send_dummy_command.
Proof. unfold _send_dummy_command. run_respects. Qed.

Lemma respects_connect : respects allowed connect.
Proof.
  unfold connect. run_respects.
Qed.

Lemma respects_disconnect : respects allowed disconnect.
Proof. unfold disconnect. run_respects. Qed.

Lemma respects_get_status : respects allowed get_status.
Proof.
  unfold get_status. run_respects.
Qed.

Lemma respects_send_fixed_speed channel speed :
  respects allowed (_send_fixed_speed channel speed).
Proof. unfold _send_fixed_speed. run_respects. Qed.

Lemma respects_set_fixed_speed channel speed :
  respects allowed (set_fixed_speed channel speed).
Proof.
  unfold set_fixed_speed. run_respects; apply respects_send_fixed_speed.
Qed.

Lemma respects_log_profile channel opt : respects allowed (log_profile channel opt).
Proof.
  induction opt as [|[temp duty] opt IH]; cbn [log_profile]; run_respects. exact IH.
Qed.

Lemma respects_set_speed_profile normalize_profile autofill_profile channel profile :
  respects allowed (set_speed_profile normalize_profile autofill_profile channel profile).
Proof.
  unfold set_speed_profile. run_respects. apply respects_log_profile.
Qed.

Lemma respects_set_color channel mode colors speed :
  (∀ dry d, allowed dry (EvSave d) = true) →
  respects allowed (set_color channel mode colors speed).
Proof.
  intros Hsave. unfold set_color, set_color_speed, set_color_colors.
  run_respects. by apply respects_to_yaml.
Qed.

End Respects.


Lemma respects_dry_safe_ok :
  (∀ dry lvl fmt args, dry_safe dry (EvLog lvl fmt args) = true) ∧
  (∀ dry, dry_safe dry EvLoad = true) ∧
  (∀ dry e, is_device_call e = true → is_transport_write e = false → dry_safe dry e = true) ∧
  (∀ e, is_device_call e = true → dry_safe false e = true) ∧
  (∀ dry d, dry_safe dry (EvSave d) = true).
Proof. split_and!; try done; intros; by destruct e. Qed.




(** X10.  In dry-run mode no method hands anything to [device.write]:
    whatever [connect], [disconnect], [get_status], [set_fixed_speed],
    [set_speed_profile] or [set_color] append to the trace contains no
    write to the device. *)
Theorem dry_run_writes_nothing
    (normalize_profile autofill_profile : list (Z * Z) → Z → result (list (Z * Z)))
    channel speed profile mode colors lspeed st st' :
  dry_run st = true →
  st' ∈ [ (connect st).2; (disconnect st).2; (get_status st).2;
          (set_fixed_speed channel speed st).2;
          (set_speed_profile normalize_profile autofill_profile channel profile st).2;
          (set_color channel mode colors lspeed st).2 ] →
  ∃ evs, emits st st' evs ∧ transport_writes evs = [].
Proof.
  destruct respects_dry_safe_ok as (Hlog & Hload & Hcall & Hwrite & Hsave).
  intros Hdry Hin.
  assert (∀ A (m : M A), respects dry_safe m →
            ∃ evs, emits st (m st).2 evs ∧ transport_writes evs = []) as Hquiet.
  { intros A m Hm. destruct (Hm st) as (k & evs & -> & Hevs).
    exists evs. split; [reflexivity|].
    rewrite Hdry in Hevs. by apply transport_writes_dry_safe. }
  repeat (apply elem_of_cons in Hin as [->|Hin]).
  - by apply Hquiet, respects_connect.
  - by apply Hquiet, respects_disconnect.
  - by apply Hquiet, respects_get_status.
  - by apply Hquiet, respects_set_fixed_speed.
  - by apply Hquiet, respects_set_speed_profile.
  - by apply Hquiet, respects_set_color.
  - by apply elem_of_nil in Hin.
Qed.

Lemma dry_run_writes_nothing_witness :
  transport_writes (trace (set_color "logo" "fixed" [[9; 9; 9]] (SpeedInt 7)
                             (quiet_device true)).2) = [].
Proof.
  destruct (dry_run_writes_nothing keep_profile keep_profile "logo" 0 []
              "fixed" [[9; 9; 9]] (SpeedInt 7) (quiet_device true)
              (set_color "logo" "fixed" [[9; 9; 9]] (SpeedInt 7) (quiet_device true)).2
              eq_refl) as (evs & Hevs & Hnone).
  - do 5 apply list_elem_of_further. apply list_elem_of_here.
  - rewrite Hevs. exact Hnone.
Defined.

(** ** Fixed speeds: channels, order of the writes, failures *)

Lemma fixed_channel_none channel :
  channel ≠ "fan" → channel ≠ "pump" → _FIXED_SPEED_CHANNELS !! channel = None.
Proof.
  intros Hfan Hpump. unfold _FIXED_SPEED_CHANNELS.
  rewrite !lookup_insert_ne by done. apply lookup_empty.
Qed.

(** X1.  A channel other than ['sync'], ['fan'] and ['pump'] is rejected
    by [set_fixed_speed] with [KeyError] before anything is logged or sent;
    [_send_fixed_speed] does the same for a channel that is neither ['fan']
    nor ['pump'], ['sync'] included. *)
Theorem set_fixed_speed_unknown_channel channel speed st :
  channel ≠ "fan" → channel ≠ "pump" →
  _send_fixed_speed channel speed st = (Raise KeyError, st) ∧
  (channel ≠ "sync" → set_fixed_speed channel speed st = (Raise KeyError, st)).
Proof.
  intros Hfan Hpump. pose proof (fixed_channel_none _ Hfan Hpump) as Hnone.
  split.
  - unfold _send_fixed_speed. by rewrite Hnone.
  - intros Hsync. unfold set_fixed_speed.
    destruct (String.eqb_spec channel "sync"); [done|]. by rewrite Hnone.
Qed.

Lemma set_fixed_speed_unknown_channel_witness :
  set_fixed_speed "logo" 50 (quiet_device false) = (Raise KeyError, quiet_device false).
Proof.
  destruct (set_fixed_speed_unknown_channel "logo" 50 (quiet_device false)) as [_ H];
    [done|done|].
  by apply H.
Defined.

Ltac run_step :=
  rewrite ?advance_advance, ?answer_advance, ?dry_run_advance, ?data_file_advance;
  cbn [Nat.add app outcome_result].

Ltac failed_at H :=
  split_and!; try done;
  [ intros Hall; match type of H with answer _ ?n = _ => specialize (Hall n) end;
    by rewrite H in Hall
  | intros ? [= <-]; eauto ].





(** ** Speed profiles: rejection, encoding, clamping *)

Lemma variable_channel_none channel :
  channel ≠ "fan" → _VARIABLE_SPEED_CHANNELS !! channel = None.
Proof.
  intros Hfan. unfold _VARIABLE_SPEED_CHANNELS.
  rewrite lookup_insert_ne by done. apply lookup_empty.
Qed.

(** X4.  [set_speed_profile] rejects before any effect: a channel other
    than ['fan'] (['pump'] included) raises [KeyError], and an exception of
    [normalize_profile] or of [autofill_profile] is passed on as it is; in
    each case nothing is logged and the device is not called. *)
Theorem set_speed_profile_rejects_early
    (normalize_profile autofill_profile : list (Z * Z) → Z → result (list (Z * Z)))
    channel profile st :
  let run := set_speed_profile normalize_profile autofill_profile channel profile st in
  (channel ≠ "fan" → run = (Raise KeyError, st)) ∧
  (∀ e, channel = "fan" →
        normalize_profile profile _CRITICAL_TEMPERATURE = Raise e →
        run = (Raise e, st)) ∧
  (∀ e norm, channel = "fan" →
        normalize_profile profile _CRITICAL_TEMPERATURE = Ok norm →
        autofill_profile norm _MAX_PROFILE_POINTS = Raise e →
        run = (Raise e, st)).
Proof.
  intros run. subst run. unfold set_speed_profile. split_and!.
  - intros Hfan. by rewrite (variable_channel_none _ Hfan).
  - intros e -> Hnorm. cbn. unfold bind, lift, _prepare_profile. by rewrite Hnorm.
  - intros e norm -> Hnorm Hfill. cbn. unfold bind, lift, _prepare_profile.
    by rewrite Hnorm, Hfill.
Qed.

Lemma set_speed_profile_rejects_early_witness :
  set_speed_profile keep_profile keep_profile "pump" [(20, 30)] (quiet_device false)
    = (Raise KeyError, quiet_device false).
Proof.
  destruct (set_speed_profile_rejects_early keep_profile keep_profile "pump" [(20, 30)]
              (quiet_device false)) as [Hkey _].
  by apply Hkey.
Defined.

(** X11.  The profile frame can be read back: its first byte is the
    message type, and pairing the [n] bytes after the two header bytes with
    the [n] bytes that follow gives back the [n] points it was built from;
    so two profiles with the same frame are the same profile. *)
Theorem profile_frame_round_trip mtype opt :
  let frame := profile_frame mtype opt in
  let n := length opt in
  frame !! 0%nat = Some mtype ∧ frame !! 1%nat = Some 0 ∧
  zip (take n (drop 2 frame)) (drop (2 + n) frame) = opt ∧
  (∀ mtype' opt', profile_frame mtype' opt' = frame → mtype' = mtype ∧ opt' = opt).
Proof.
  intros frame n. subst frame n.
  assert (∀ m o, zip (take (length o) (drop 2 (profile_frame m o)))
                     (drop (2 + length o) (profile_frame m o)) = o) as Hback.
  { intros m o.
    change (drop 2 (profile_frame m o)) with (map fst o ++ map snd o).
    change (drop (2 + length o) (profile_frame m o))
      with (drop (length o) (map fst o ++ map snd o)).
    rewrite take_app_length' by (by rewrite length_map).
    rewrite drop_app_length' by (by rewrite length_map).
    induction o as [|[t d] o IH]; [done|]. cbn. by rewrite IH. }
  split_and!; [done|done|apply Hback|].
  intros mtype' opt' Heq.
  assert (length opt' = length opt) as Hlen.
  { apply (f_equal length) in Heq. rewrite !length_profile_frame in Heq. lia. }
  split.
  - unfold profile_frame in Heq. by injection Heq.
  - rewrite <- (Hback mtype' opt'), <- (Hback mtype opt), Heq, Hlen. done.
Qed.

Lemma clamp_point_idempotent lo hi p :
  lo ≤ hi → clamp_point lo hi (clamp_point lo hi p) = clamp_point lo hi p.
Proof.
  intros Hle. unfold clamp_point; cbn [fst snd]. f_equal.
  rewrite !clamp_branches by done. unfold clip. lia.
Qed.

(** X12.  With ordered bounds the clamp pass of [_prepare_profile] is
    idempotent, changes nothing in a profile whose duties are already
    within the bounds, and keeps duties that do not decrease from one point
    to the next in that order. *)
Theorem clamp_pass_stable lo hi opt :
  lo ≤ hi →
  clamp_pass lo hi (clamp_pass lo hi opt) = clamp_pass lo hi opt ∧
  (Forall (λ p, lo ≤ p.2 ≤ hi) opt → clamp_pass lo hi opt = opt) ∧
  (∀ i p q, clamp_pass lo hi opt !! i = Some p → clamp_pass lo hi opt !! S i = Some q →
     ∀ p0 q0, opt !! i = Some p0 → opt !! S i = Some q0 → p0.2 ≤ q0.2 → p.2 ≤ q.2).
Proof.
  intros Hle. rewrite !clamp_pass_map. split_and!.
  - rewrite <- list_fmap_compose. apply list_fmap_ext. intros i p _.
    by apply clamp_point_idempotent.
  - intros Hin. rewrite <- (list_fmap_id opt) at 2. apply Forall_fmap_ext_1.
    eapply Forall_impl; [exact Hin|]. intros [t d] Hd. unfold clamp_point; cbn in *.
    rewrite clamp_branches by done. unfold clip. f_equal. lia.
  - intros i p q Hp Hq p0 q0 Hp0 Hq0 Hmono.
    rewrite list_lookup_fmap in Hp, Hq. rewrite Hp0 in Hp. rewrite Hq0 in Hq.
    injection Hp as <-. injection Hq as <-. unfold clamp_point; cbn [snd].
    rewrite !clamp_branches by done. unfold clip. lia.
Qed.

Lemma clamp_pass_stable_witness :
  clamp_pass 30 100 (clamp_pass 30 100 [(20, 10); (40, 120)])
    = clamp_pass 30 100 [(20, 10); (40, 120)].
Proof. exact (proj1 (clamp_pass_stable 30 100 [(20, 10); (40, 120)] ltac:(lia))). Defined.

(** ** Disconnecting, and the numbers of a status report *)

(** X13.  [disconnect] always issues the close control transfer first and
    asks the base class to release the device if and only if that transfer
    succeeded; the exception of whichever call fails is the outcome. *)
Theorem disconnect_releases_after_close st :
  ∃ evs, emits st (disconnect st).2 evs ∧
    device_calls evs = close_call :: (if succeeds (answer st 0) then [EvRelease] else []) ∧
    (EvRelease ∈ evs ↔ succeeds (answer st 0) = true) ∧
    (disconnect st).1 =
      (if succeeds (answer st 0) then outcome_result (answer st 1)
       else outcome_result (answer st 0)).
Proof.
  rewrite disconnect_run.
  destruct (answer st 0) as [p0|e0]; cbn [succeeds fst snd].
  all: eexists; (split; [apply emits_advance|]); split_and!; try done.
  - split; [done|]. intros _. do 2 apply list_elem_of_further. apply list_elem_of_here.
  - split; [|done]. intros H. not_in_list H.
Qed.




(** ** Transactions that write one frame *)

Lemma write_read_calls data st :
  ∃ r k evs,
    (_write data ;; _end_transaction_and_read ;; ret tt) st = (r, advance k evs st) ∧
    device_calls evs `prefix_of`
      (if dry_run st then [] else [write_call data]) ++ [read_call; EvDispose] ∧
    (r = Ok tt →
       device_calls evs = (if dry_run st then [] else [write_call data]) ++ [read_call; EvDispose]) ∧
    write_requests evs = [data] ∧
    last_saved (data_file st) evs = data_file st ∧
    ((∀ n, succeeds (answer st n) = true) → r = Ok tt) ∧
    (∀ e, r = Raise e → ∃ n, answer st n = DevRaise e).
Proof.
  unfold bind. rewrite _write_run. destruct (dry_run st) eqn:Hdry.
  - rewrite _end_transaction_and_read_run. run_step.
    destruct (answer st 0) as [msg|e0] eqn:H0.
    + destruct (answer st 1) as [p1|e1] eqn:H1.
      all: eexists _, _, _; (split; [run_step; reflexivity|]).
      all: split; [by eexists|].
      * split_and!; done.
      * split; [done|]. split; [done|]. split; [done|]. failed_at H1.
    + eexists _, _, _. split; [run_step; reflexivity|]. split; [by eexists|].
      split; [done|]. split; [done|]. split; [done|]. failed_at H0.
  - destruct (answer st 0) as [p0|e0] eqn:H0; cbn [outcome_result].
    2:{ eexists _, _, _. split; [reflexivity|]. split; [by eexists|].
        split; [done|]. split; [done|]. split; [done|]. failed_at H0. }
    rewrite _end_transaction_and_read_run. run_step.
    destruct (answer st 1) as [msg|e1] eqn:H1.
    + destruct (answer st 2) as [p2|e2] eqn:H2.
      all: eexists _, _, _; (split; [run_step; reflexivity|]).
      all: split; [by eexists|].
      * split_and!; done.
      * split; [done|]. split; [done|]. split; [done|]. failed_at H2.
    + eexists _, _, _. split; [run_step; reflexivity|]. split; [by eexists|].
      split; [done|]. split; [done|]. split; [done|]. failed_at H1.
Qed.




(** ** Lighting: rejections, the speed byte, the frame *)

Lemma set_color_unsupported channel mode colors speed st :
  mode ∉ modes →
  set_color channel mode colors speed st =
    (Raise NotImplementedError, advance 0 (speed_events speed ++ channel_events channel) st).
Proof.
  intros Hmode. unfold set_color.
  unfold bind at 1. rewrite set_color_speed_run.
  unfold bind at 1.
  assert ((if negb (String.eqb channel "logo")
           then log WARNING only_logo_message [] else ret tt)
            (advance 0 (speed_events speed) st)
          = (Ok tt, advance 0 (speed_events speed ++ channel_events channel) st)) as ->.
  { unfold channel_events. destruct (String.eqb channel "logo"); cbn [negb].
    - by rewrite app_nil_r.
    - by rewrite log_run, advance_advance. }
  unfold bind at 1. by rewrite (bool_decide_eq_false_2 _ Hmode).
Qed.

Lemma speed_channel_events_silent speed channel :
  device_calls (speed_events speed ++ channel_events channel) = [] ∧
  write_requests (speed_events speed ++ channel_events channel) = [].
Proof.
  unfold speed_events, channel_events.
  destruct speed as [n|s]; [destruct ((n <? 1) || (n >? 255))|destruct (speeds !! s)];
    by destruct (String.eqb channel "logo").
Qed.

(** X5.  When [set_color] fails before its save, the stored lighting
    frame is left as it was: for a mode outside the four supported ones
    ([NotImplementedError], no device call), for no colour at all with a
    mode other than ['off'] ([ValueError], no device call), and when
    begin-transaction raises (that exception, begin-transaction being the
    only device call). *)
Theorem set_color_fails_without_saving channel mode colors speed st :
  let run := set_color channel mode colors speed st in
  ∃ evs, emits st run.2 evs ∧
    (mode ∉ modes →
       run.1 = Raise NotImplementedError ∧ device_calls evs = [] ∧
       data_file run.2 = data_file st) ∧
    (mode ∈ modes → mode ≠ "off" → colors = [] →
       run.1 = Raise ValueError ∧ device_calls evs = [] ∧
       data_file run.2 = data_file st) ∧
    (∀ e, mode ∈ modes → mode = "off" ∨ colors ≠ [] → answer st 0 = DevRaise e →
       run.1 = Raise e ∧ device_calls evs = [begin_call] ∧
       data_file run.2 = data_file st).
Proof.
  intros run. subst run.
  destruct (speed_channel_events_silent speed channel) as [Hdc _].
  destruct (decide (mode ∈ modes)) as [Hmode|Hmode].
  2:{ rewrite (set_color_unsupported _ _ _ _ _ Hmode).
      exists (speed_events speed ++ channel_events channel).
      split; [apply emits_advance|].
      split; [intros _; cbn [fst snd]; rewrite Hdc; split_and!; reflexivity|].
      split; [intros Hin; destruct (Hmode Hin)|].
      intros e Hin. destruct (Hmode Hin). }
  rewrite (set_color_run _ _ _ _ _ Hmode).
  destruct (negb (String.eqb mode "off") && bool_decide (colors = [])) eqn:Hrej.
  { exists (speed_events speed ++ channel_events channel).
    split; [apply emits_advance|].
    split; [intros Hn; destruct (Hn Hmode)|].
    split; [intros _ _ _; cbn [fst snd]; rewrite Hdc; split_and!; reflexivity|].
    intros e _ Hacc. rewrite (accepted_colors _ _ Hacc) in Hrej. discriminate Hrej. }
  assert (mode ≠ "off" → colors = [] → False) as Hrej'.
  { intros Hne ->. destruct (String.eqb_spec mode "off"); [done|]. discriminate Hrej. }
  cbn zeta.
  destruct (color_preamble_silent channel mode colors speed) as (_ & _ & Hcalls & _).
  destruct (answer st 0) as [p0|e0] eqn:H0.
  - destruct (write_read_calls
                (lighting_frame (chosen_colors mode colors).1 (chosen_colors mode colors).2
                   (speed_value speed) mode)
                (set_data_file
                   (lighting_frame (chosen_colors mode colors).1 (chosen_colors mode colors).2
                      (speed_value speed) mode)
                   (advance 0
                      [EvSave (lighting_frame (chosen_colors mode colors).1
                                 (chosen_colors mode colors).2 (speed_value speed) mode)]
                      (advance 1 (color_preamble channel mode colors speed) st))))
      as (r & k & evs & Hrun & _).
    rewrite Hrun.
    exists (color_preamble channel mode colors speed ++
            EvSave (lighting_frame (chosen_colors mode colors).1
                      (chosen_colors mode colors).2 (speed_value speed) mode) :: evs).
    split; [unfold emits; cbn [snd trace advance set_data_file]; by rewrite <- !app_assoc|].
    split; [intros Hn; destruct (Hn Hmode)|].
    split; [intros _ Hm Hc; destruct (Hrej' Hm Hc)|].
    intros e _ _ He. discriminate He.
  - exists (color_preamble channel mode colors speed).
    split; [apply emits_advance|].
    split; [intros Hn; destruct (Hn Hmode)|].
    split; [intros _ Hm Hc; destruct (Hrej' Hm Hc)|].
    intros e _ _ [= <-]. cbn [fst snd]. rewrite Hcalls. split_and!; reflexivity.
Qed.
Lemma set_color_fails_without_saving_witness :
  (set_color "logo" "rainbow" [[1; 2; 3]] (SpeedInt 3) (quiet_device false)).1
    = Raise NotImplementedError ∧
  data_file (set_color "logo" "rainbow" [[1; 2; 3]] (SpeedInt 3) (quiet_device false)).2
    = DEFAULT_COLOR_STATE.
Proof.
  destruct (set_color_fails_without_saving "logo" "rainbow" [[1; 2; 3]] (SpeedInt 3)
              (quiet_device false)) as (evs & _ & Hmode & _).
  destruct Hmode as (Hres & _ & Hfile); [intros Hin; not_in_list Hin|]. by split.
Defined.

Lemma speeds_inv s v :
  speeds !! s = Some v →
  (s = "fastest" ∧ v = 1) ∨ (s = "faster" ∧ v = 2) ∨ (s = "normal" ∧ v = 3) ∨
  (s = "slower" ∧ v = 4) ∨ (s = "slowest" ∧ v = 5).
Proof.
  unfold speeds. intros H.
  repeat (apply lookup_insert_Some in H as [[<- <-]|[_ H]]; [by eauto 6|]).
  by rewrite lookup_empty in H.
Qed.



Lemma speed_value_range speed : 1 ≤ speed_value speed ≤ 255.
Proof.
  destruct speed as [n|s]; cbn [speed_value].
  - destruct (Z.ltb_spec n 1); [cbn; lia|].
    rewrite Z.gtb_ltb. destruct (Z.ltb_spec 255 n); cbn; lia.
  - destruct (speeds !! s) as [v|] eqn:Hs; cbn; [|lia].
    apply speeds_inv in Hs as [[_ ->]|[[_ ->]|[[_ ->]|[[_ ->]|[_ ->]]]]]; lia.
Qed.


Lemma set_color_state channel mode colors speed st :
  mode ∈ modes → mode = "off" ∨ colors ≠ [] → succeeds (answer st 0) = true →
  let frame := lighting_frame (chosen_colors mode colors).1 (chosen_colors mode colors).2
                 (speed_value speed) mode in
  data_file (set_color channel mode colors speed st).2 = frame ∧
  dry_run (set_color channel mode colors speed st).2 = dry_run st.
Proof.
  intros Hmode Hacc Hbegin frame.
  rewrite (set_color_run _ _ _ _ _ Hmode), (accepted_colors _ _ Hacc). cbn zeta. fold frame.
  destruct (answer st 0) as [p0|e0]; [|done].
  destruct (write_read_calls frame
              (set_data_file frame
                 (advance 0 [EvSave frame] (advance 1 (color_preamble channel mode colors speed) st))))
    as (r & k & evs & Hrun & _).
  by rewrite Hrun.
Qed.

Lemma status_frame_writes st :
  ∃ evs, emits st (get_status st).2 evs ∧
    write_requests evs = (if succeeds (answer st 0) then [data_file st] else []) ∧
    transport_writes evs =
      (if succeeds (answer st 0) && negb (dry_run st) then [data_file st] else []).
Proof.
  rewrite get_status_state, status_frame_run.
  destruct (answer st 0) as [p0|e0]; cbn zeta; cbn [succeeds andb].
  2:{ eexists. split; [apply emits_advance|]. done. }
  destruct (dry_run st); cbn [Nat.add negb].
  - destruct (answer st 1) as [msg|e1]; [destruct (answer st 2) as [p2|e2]|].
    all: eexists; (split; [apply emits_advance|]); done.
  - destruct (answer st 1) as [p1|e1];
      [destruct (answer st 2) as [msg|e2]; [destruct (answer st 3) as [p3|e3]|]|].
    all: eexists; (split; [apply emits_advance|]); done.
Qed.

(** X8.  What [set_color] saves is what the next [get_status] replays:
    after a [set_color] call that passed validation and begin-transaction,
    the dummy command of a [get_status] whose own begin-transaction succeeds
    is a [_write] of exactly the frame of that call, which reaches the device
    unless the driver is in dry-run mode. *)
Theorem get_status_replays_set_color channel mode colors speed st :
  mode ∈ modes → mode = "off" ∨ colors ≠ [] → succeeds (answer st 0) = true →
  let frame := lighting_frame (chosen_colors mode colors).1 (chosen_colors mode colors).2
                 (speed_value speed) mode in
  let st1 := (set_color channel mode colors speed st).2 in
  succeeds (answer st1 0) = true →
  ∃ evs, emits st1 (get_status st1).2 evs ∧
    write_requests evs = [frame] ∧
    transport_writes evs = (if dry_run st then [] else [frame]).
Proof.
  intros Hmode Hacc Hbegin frame st1 Hbegin1.
  destruct (set_color_state channel mode colors speed st Hmode Hacc Hbegin) as [Hfile Hdry].
  fold frame st1 in Hfile, Hdry.
  destruct (status_frame_writes st1) as (evs & Hevs & Hreq & Htr).
  exists evs. rewrite Hbegin1, Hfile, Hdry in *. split_and!; try done.
  rewrite Htr. by destruct (dry_run st).
Qed.

Lemma get_status_replays_set_color_witness :
  transport_writes
    (trace (get_status
       (set_color "logo" "alternating" [[255; 0; 0]; [0; 0; 255]] (SpeedStr "slower")
          (quiet_device false)).2).2)
    = [ [0x10; 255; 0; 0; 0; 0; 255; 0xff; 0; 0; 0x37; 4; 4; 1; 1; 0; 1; 0; 1];
        [0x10; 255; 0; 0; 0; 0; 255; 0xff; 0; 0; 0x37; 4; 4; 1; 1; 0; 1; 0; 1] ].
Proof.
  destruct (get_status_replays_set_color "logo" "alternating" [[255; 0; 0]; [0; 0; 255]]
              (SpeedStr "slower") (quiet_device false))
    as (evs & Hevs & _ & Hsent); [set_solver|by right|done|done|].
  rewrite Hevs, transport_writes_app, Hsent. reflexivity.
Defined.

Lemma modes_inv mode :
  mode ∈ modes →
  mode = "fixed" ∨ mode = "alternating" ∨ mode = "blinking" ∨ mode = "off".
Proof.
  unfold modes. intros H.
  repeat (apply elem_of_cons in H as [->|H]; [by auto|]).
  by apply elem_of_nil in H.
Qed.

(** X7.  With mode ['off'] the colours given are ignored, however many:
    once begin-transaction has succeeded the frame saved is black twice with
    the three flags at 0, only the speed byte depending on the call, and no
    truncation warning is logged. *)
Theorem set_color_off_frame channel colors speed st :
  succeeds (answer st 0) = true →
  let run := set_color channel "off" colors speed st in
  ∃ v, (set_color_speed speed st).1 = Ok v ∧ 1 ≤ v ≤ 255 ∧
    data_file run.2 =
      [0x10; 0; 0; 0; 0; 0; 0; 0xff; 0; 0; 0x37; v; v; 0; 0; 0; 1; 0; 1] ∧
    ∃ evs, emits st run.2 evs ∧ truncation_warning ∉ evs.
Proof.
  intros Hbegin run. subst run.
  exists (speed_value speed).
  split; [by rewrite set_color_speed_run|]. split; [apply speed_value_range|].
  assert ("off" ∈ modes) as Hmode.
  { do 3 apply list_elem_of_further. apply list_elem_of_here. }
  destruct (set_color_state channel "off" colors speed st Hmode (or_introl eq_refl) Hbegin)
    as [Hfile _].
  split; [rewrite Hfile; reflexivity|].
  rewrite (set_color_run _ _ _ _ _ Hmode).
  change (negb (String.eqb "off" "off") && bool_decide (colors = [])) with false.
  cbv zeta iota.
  destruct (answer st 0) as [p0|e0]; [|discriminate Hbegin].
  destruct (color_preamble_silent channel "off" colors speed) as (_ & _ & _ & Hwpre).
  destruct (write_read_done
              (lighting_frame (chosen_colors "off" colors).1 (chosen_colors "off" colors).2
                 (speed_value speed) "off")
              (set_data_file
                 (lighting_frame (chosen_colors "off" colors).1 (chosen_colors "off" colors).2
                    (speed_value speed) "off")
                 (advance 0
                    [EvSave (lighting_frame (chosen_colors "off" colors).1
                               (chosen_colors "off" colors).2 (speed_value speed) "off")]
                    (advance 1 (color_preamble channel "off" colors speed) st))))
    as (r & k & evs & Hrun & _ & _ & Hwarn & _).
  rewrite Hrun.
  exists (color_preamble channel "off" colors speed ++
          EvSave (lighting_frame (chosen_colors "off" colors).1
                    (chosen_colors "off" colors).2 (speed_value speed) "off") :: evs).
  split; [unfold emits; cbn [snd trace advance set_data_file]; by rewrite <- !app_assoc|].
  intros Hin.
  assert (truncation_warning ∈
            warnings (color_preamble channel "off" colors speed ++
                      EvSave (lighting_frame (chosen_colors "off" colors).1
                                (chosen_colors "off" colors).2 (speed_value speed) "off")
                      :: evs)) as Hw.
  { unfold warnings. apply list_elem_of_In, List.filter_In.
    split; [by apply list_elem_of_In|reflexivity]. }
  rewrite warnings_app, Hwpre in Hw.
  change (warnings (EvSave ?f :: evs)) with (warnings evs) in Hw.
  rewrite Hwarn, app_nil_r in Hw.
  apply truncation_warning_only, color_events_truncation in Hw as [Hne _].
  by apply Hne.
Qed.

Lemma set_color_off_frame_witness :
  data_file (set_color "logo" "off" [[1; 2; 3]; [4; 5; 6]; [7; 8; 9]] (SpeedStr "fast")
               (quiet_device false)).2
    = [0x10; 0; 0; 0; 0; 0; 0; 0xff; 0; 0; 0x37; 1; 1; 0; 0; 0; 1; 0; 1].
Proof.
  destruct (set_color_off_frame "logo" [[1; 2; 3]; [4; 5; 6]; [7; 8; 9]] (SpeedStr "fast")
              (quiet_device false) eq_refl) as (v & Hv & _ & Hfile & _).
  injection Hv as <-. exact Hfile.
Defined.



Lemma triple_inv (c : list Z) : length c = 3%nat → ∃ r g b, c = [r; g; b].
Proof. destruct c as [|r [|g [|b [|x c]]]]; try done. eauto. Qed.

(** X15.  The lighting frame determines what it was built from: for RGB
    triples and supported modes, two frames are equal only if the two
    colours, the speed and the mode are; the three flag bytes at offsets 13
    to 15 are 0,0,0 for ['off'], 1,0,0 for ['fixed'], 1,1,0 for
    ['alternating'] and 1,0,1 for ['blinking']. *)
Theorem lighting_frame_decodable c1 c2 speed mode c1' c2' speed' mode' :
  length c1 = 3%nat → length c2 = 3%nat → length c1' = 3%nat → length c2' = 3%nat →
  mode ∈ modes → mode' ∈ modes →
  take 3 (drop 13 (lighting_frame c1 c2 speed mode)) =
    (if String.eqb mode "off" then [0; 0; 0]
     else if String.eqb mode "alternating" then [1; 1; 0]
     else if String.eqb mode "blinking" then [1; 0; 1]
     else [1; 0; 0]) ∧
  (lighting_frame c1 c2 speed mode = lighting_frame c1' c2' speed' mode' →
   c1 = c1' ∧ c2 = c2' ∧ speed = speed' ∧ mode = mode').
Proof.
  intros (r1 & g1 & b1 & ->)%triple_inv (r2 & g2 & b2 & ->)%triple_inv
         (r1' & g1' & b1' & ->)%triple_inv (r2' & g2' & b2' & ->)%triple_inv
         Hmode Hmode'.
  apply modes_inv in Hmode as [-> | [-> | [-> | ->]]];
    (split; [reflexivity|]);
    apply modes_inv in Hmode' as [-> | [-> | [-> | ->]]];
    intros Heq; vm_compute in Heq; try discriminate Heq;
    injection Heq as -> -> -> -> -> -> ->; done.
Qed.

Lemma lighting_frame_decodable_witness :
  take 3 (drop 13 (lighting_frame [1; 2; 3] [4; 5; 6] 7 "blinking")) = [1; 0; 1].
Proof.
  refine (proj1 (lighting_frame_decodable [1; 2; 3] [4; 5; 6] 7 "blinking"
                   [1; 2; 3] [4; 5; 6] 7 "blinking" eq_refl eq_refl eq_refl eq_refl _ _)).
  all: do 2 apply list_elem_of_further; apply list_elem_of_here.
Defined.
